(** * Video Downloader: the download lifecycle model ([src/model.py])

    A shallow embedding of the [Model] class: its GObject properties, the
    process-wide download lock shared by all instances, the state
    transitions bound to the [state] property, and the callbacks of the
    [downloader.Handler] interface the download engine drives. *)

From Stdlib Require Import ZArith String List.
From Stdlib Require Import Floats.PrimFloat.
From stdpp Require Import base gmap sets strings list.

Local Open Scope string_scope.
Local Open Scope Z_scope.

(** ** Exceptions and the state-and-error monad *)

(** The exceptions the modelled code can raise: a failed [assert], a
    [set.remove] of a missing element, and the conversion error of an
    integer that does not fit a [TYPE_INT64] property, and what the base
    [Handler] raises. *)
Inductive exn : Set :=
| AssertionError
| KeyError
| OverflowError
| NotImplementedError.

Inductive result (A : Type) : Type :=
| Ok (a : A)
| Raise (e : exn).
Arguments Ok {A} a.
Arguments Raise {A} e.

(** ** The data of one [Model] instance *)

(** Calls made on [self._downloader]; the engine itself is an external
    collaborator, so the model records the calls, oldest first. *)
Inductive downloader_call : Set :=
| Downloader_start
| Downloader_cancel
| Downloader_shutdown.

(** One field per GObject property, in the order of the class body, then
    the private attributes set in [__init__].  [str] properties default to
    the empty string, [TYPE_STRV] properties to [None]; [download_pulse]
    counts the emissions of the ['download-pulse'] signal. *)
Record Model : Type := mkModel {
  state : string;
  mode : string;
  url : string;
  error : string;
  resolution : Z;
  download_folder : string;
  finished_download_dir : string;
  finished_download_filenames : option (list string);
  automatic_subtitles : option (list string);
  prefer_mpeg : bool;
  download_playlist_index : Z;
  download_playlist_count : Z;
  download_filename : string;
  download_title : string;
  download_thumbnail : string;
  download_progress : float;
  download_bytes : Z;
  download_bytes_total : Z;
  download_speed : Z;
  download_eta : Z;
  _downloader : list downloader_call;
  _active_download_lock : option string;
  _prev_state : option string;
  download_pulse : nat
}.

(** Attribute assignment [self.f = v], one setter per field. *)
Definition set_state (v : string) (m : Model) : Model :=
  {| state := v; mode := mode m; url := url m; error := error m;
     resolution := resolution m; download_folder := download_folder m;
     finished_download_dir := finished_download_dir m;
     finished_download_filenames := finished_download_filenames m;
     automatic_subtitles := automatic_subtitles m;
     prefer_mpeg := prefer_mpeg m;
     download_playlist_index := download_playlist_index m;
     download_playlist_count := download_playlist_count m;
     download_filename := download_filename m;
     download_title := download_title m;
     download_thumbnail := download_thumbnail m;
     download_progress := download_progress m;
     download_bytes := download_bytes m;
     download_bytes_total := download_bytes_total m;
     download_speed := download_speed m; download_eta := download_eta m;
     _downloader := _downloader m;
     _active_download_lock := _active_download_lock m;
     _prev_state := _prev_state m; download_pulse := download_pulse m |}.

Definition set_mode (v : string) (m : Model) : Model :=
  {| state := state m; mode := v; url := url m; error := error m;
     resolution := resolution m; download_folder := download_folder m;
     finished_download_dir := finished_download_dir m;
     finished_download_filenames := finished_download_filenames m;
     automatic_subtitles := automatic_subtitles m;
     prefer_mpeg := prefer_mpeg m;
     download_playlist_index := download_playlist_index m;
     download_playlist_count := download_playlist_count m;
     download_filename := download_filename m;
     download_title := download_title m;
     download_thumbnail := download_thumbnail m;
     download_progress := download_progress m;
     download_bytes := download_bytes m;
     download_bytes_total := download_bytes_total m;
     download_speed := download_speed m; download_eta := download_eta m;
     _downloader := _downloader m;
     _active_download_lock := _active_download_lock m;
     _prev_state := _prev_state m; download_pulse := download_pulse m |}.

Definition set_url (v : string) (m : Model) : Model :=
  {| state := state m; mode := mode m; url := v; error := error m;
     resolution := resolution m; download_folder := download_folder m;
     finished_download_dir := finished_download_dir m;
     finished_download_filenames := finished_download_filenames m;
     automatic_subtitles := automatic_subtitles m;
     prefer_mpeg := prefer_mpeg m;
     download_playlist_index := download_playlist_index m;
     download_playlist_count := download_playlist_count m;
     download_filename := download_filename m;
     download_title := download_title m;
     download_thumbnail := download_thumbnail m;
     download_progress := download_progress m;
     download_bytes := download_bytes m;
     download_bytes_total := download_bytes_total m;
     download_speed := download_speed m; download_eta := download_eta m;
     _downloader := _downloader m;
     _active_download_lock := _active_download_lock m;
     _prev_state := _prev_state m; download_pulse := download_pulse m |}.

Definition set_error (v : string) (m : Model) : Model :=
  {| state := state m; mode := mode m; url := url m; error := v;
     resolution := resolution m; download_folder := download_folder m;
     finished_download_dir := finished_download_dir m;
     finished_download_filenames := finished_download_filenames m;
     automatic_subtitles := automatic_subtitles m;
     prefer_mpeg := prefer_mpeg m;
     download_playlist_index := download_playlist_index m;
     download_playlist_count := download_playlist_count m;
     download_filename := download_filename m;
     download_title := download_title m;
     download_thumbnail := download_thumbnail m;
     download_progress := download_progress m;
     download_bytes := download_bytes m;
     download_bytes_total := download_bytes_total m;
     download_speed := download_speed m; download_eta := download_eta m;
     _downloader := _downloader m;
     _active_download_lock := _active_download_lock m;
     _prev_state := _prev_state m; download_pulse := download_pulse m |}.

Definition set_resolution (v : Z) (m : Model) : Model :=
  {| state := state m; mode := mode m; url := url m; error := error m;
     resolution := v; download_folder := download_folder m;
     finished_download_dir := finished_download_dir m;
     finished_download_filenames := finished_download_filenames m;
     automatic_subtitles := automatic_subtitles m;
     prefer_mpeg := prefer_mpeg m;
     download_playlist_index := download_playlist_index m;
     download_playlist_count := download_playlist_count m;
     download_filename := download_filename m;
     download_title := download_title m;
     download_thumbnail := download_thumbnail m;
     download_progress := download_progress m;
     download_bytes := download_bytes m;
     download_bytes_total := download_bytes_total m;
     download_speed := download_speed m; download_eta := download_eta m;
     _downloader := _downloader m;
     _active_download_lock := _active_download_lock m;
     _prev_state := _prev_state m; download_pulse := download_pulse m |}.

Definition set_download_folder (v : string) (m : Model) : Model :=
  {| state := state m; mode := mode m; url := url m; error := error m;
     resolution := resolution m; download_folder := v;
     finished_download_dir := finished_download_dir m;
     finished_download_filenames := finished_download_filenames m;
     automatic_subtitles := automatic_subtitles m;
     prefer_mpeg := prefer_mpeg m;
     download_playlist_index := download_playlist_index m;
     download_playlist_count := download_playlist_count m;
     download_filename := download_filename m;
     download_title := download_title m;
     download_thumbnail := download_thumbnail m;
     download_progress := download_progress m;
     download_bytes := download_bytes m;
     download_bytes_total := download_bytes_total m;
     download_speed := download_speed m; download_eta := download_eta m;
     _downloader := _downloader m;
     _active_download_lock := _active_download_lock m;
     _prev_state := _prev_state m; download_pulse := download_pulse m |}.

Definition set_finished_download_dir (v : string) (m : Model) : Model :=
  {| state := state m; mode := mode m; url := url m; error := error m;
     resolution := resolution m; download_folder := download_folder m;
     finished_download_dir := v;
     finished_download_filenames := finished_download_filenames m;
     automatic_subtitles := automatic_subtitles m;
     prefer_mpeg := prefer_mpeg m;
     download_playlist_index := download_playlist_index m;
     download_playlist_count := download_playlist_count m;
     download_filename := download_filename m;
     download_title := download_title m;
     download_thumbnail := download_thumbnail m;
     download_progress := download_progress m;
     download_bytes := download_bytes m;
     download_bytes_total := download_bytes_total m;
     download_speed := download_speed m; download_eta := download_eta m;
     _downloader := _downloader m;
     _active_download_lock := _active_download_lock m;
     _prev_state := _prev_state m; download_pulse := download_pulse m |}.

Definition set_finished_download_filenames (v : option (list string)) (m : Model) : Model :=
  {| state := state m; mode := mode m; url := url m; error := error m;
     resolution := resolution m; download_folder := download_folder m;
     finished_download_dir := finished_download_dir m;
     finished_download_filenames := v;
     automatic_subtitles := automatic_subtitles m;
     prefer_mpeg := prefer_mpeg m;
     download_playlist_index := download_playlist_index m;
     download_playlist_count := download_playlist_count m;
     download_filename := download_filename m;
     download_title := download_title m;
     download_thumbnail := download_thumbnail m;
     download_progress := download_progress m;
     download_bytes := download_bytes m;
     download_bytes_total := download_bytes_total m;
     download_speed := download_speed m; download_eta := download_eta m;
     _downloader := _downloader m;
     _active_download_lock := _active_download_lock m;
     _prev_state := _prev_state m; download_pulse := download_pulse m |}.

Definition set_automatic_subtitles (v : option (list string)) (m : Model) : Model :=
  {| state := state m; mode := mode m; url := url m; error := error m;
     resolution := resolution m; download_folder := download_folder m;
     finished_download_dir := finished_download_dir m;
     finished_download_filenames := finished_download_filenames m;
     automatic_subtitles := v; prefer_mpeg := prefer_mpeg m;
     download_playlist_index := download_playlist_index m;
     download_playlist_count := download_playlist_count m;
     download_filename := download_filename m;
     download_title := download_title m;
     download_thumbnail := download_thumbnail m;
     download_progress := download_progress m;
     download_bytes := download_bytes m;
     download_bytes_total := download_bytes_total m;
     download_speed := download_speed m; download_eta := download_eta m;
     _downloader := _downloader m;
     _active_download_lock := _active_download_lock m;
     _prev_state := _prev_state m; download_pulse := download_pulse m |}.

Definition set_prefer_mpeg (v : bool) (m : Model) : Model :=
  {| state := state m; mode := mode m; url := url m; error := error m;
     resolution := resolution m; download_folder := download_folder m;
     finished_download_dir := finished_download_dir m;
     finished_download_filenames := finished_download_filenames m;
     automatic_subtitles := automatic_subtitles m; prefer_mpeg := v;
     download_playlist_index := download_playlist_index m;
     download_playlist_count := download_playlist_count m;
     download_filename := download_filename m;
     download_title := download_title m;
     download_thumbnail := download_thumbnail m;
     download_progress := download_progress m;
     download_bytes := download_bytes m;
     download_bytes_total := download_bytes_total m;
     download_speed := download_speed m; download_eta := download_eta m;
     _downloader := _downloader m;
     _active_download_lock := _active_download_lock m;
     _prev_state := _prev_state m; download_pulse := download_pulse m |}.

Definition set_download_playlist_index (v : Z) (m : Model) : Model :=
  {| state := state m; mode := mode m; url := url m; error := error m;
     resolution := resolution m; download_folder := download_folder m;
     finished_download_dir := finished_download_dir m;
     finished_download_filenames := finished_download_filenames m;
     automatic_subtitles := automatic_subtitles m;
     prefer_mpeg := prefer_mpeg m; download_playlist_index := v;
     download_playlist_count := download_playlist_count m;
     download_filename := download_filename m;
     download_title := download_title m;
     download_thumbnail := download_thumbnail m;
     download_progress := download_progress m;
     download_bytes := download_bytes m;
     download_bytes_total := download_bytes_total m;
     download_speed := download_speed m; download_eta := download_eta m;
     _downloader := _downloader m;
     _active_download_lock := _active_download_lock m;
     _prev_state := _prev_state m; download_pulse := download_pulse m |}.

Definition set_download_playlist_count (v : Z) (m : Model) : Model :=
  {| state := state m; mode := mode m; url := url m; error := error m;
     resolution := resolution m; download_folder := download_folder m;
     finished_download_dir := finished_download_dir m;
     finished_download_filenames := finished_download_filenames m;
     automatic_subtitles := automatic_subtitles m;
     prefer_mpeg := prefer_mpeg m;
     download_playlist_index := download_playlist_index m;
     download_playlist_count := v; download_filename := download_filename m;
     download_title := download_title m;
     download_thumbnail := download_thumbnail m;
     download_progress := download_progress m;
     download_bytes := download_bytes m;
     download_bytes_total := download_bytes_total m;
     download_speed := download_speed m; download_eta := download_eta m;
     _downloader := _downloader m;
     _active_download_lock := _active_download_lock m;
     _prev_state := _prev_state m; download_pulse := download_pulse m |}.

Definition set_download_filename (v : string) (m : Model) : Model :=
  {| state := state m; mode := mode m; url := url m; error := error m;
     resolution := resolution m; download_folder := download_folder m;
     finished_download_dir := finished_download_dir m;
     finished_download_filenames := finished_download_filenames m;
     automatic_subtitles := automatic_subtitles m;
     prefer_mpeg := prefer_mpeg m;
     download_playlist_index := download_playlist_index m;
     download_playlist_count := download_playlist_count m;
     download_filename := v; download_title := download_title m;
     download_thumbnail := download_thumbnail m;
     download_progress := download_progress m;
     download_bytes := download_bytes m;
     download_bytes_total := download_bytes_total m;
     download_speed := download_speed m; download_eta := download_eta m;
     _downloader := _downloader m;
     _active_download_lock := _active_download_lock m;
     _prev_state := _prev_state m; download_pulse := download_pulse m |}.

Definition set_download_title (v : string) (m : Model) : Model :=
  {| state := state m; mode := mode m; url := url m; error := error m;
     resolution := resolution m; download_folder := download_folder m;
     finished_download_dir := finished_download_dir m;
     finished_download_filenames := finished_download_filenames m;
     automatic_subtitles := automatic_subtitles m;
     prefer_mpeg := prefer_mpeg m;
     download_playlist_index := download_playlist_index m;
     download_playlist_count := download_playlist_count m;
     download_filename := download_filename m; download_title := v;
     download_thumbnail := download_thumbnail m;
     download_progress := download_progress m;
     download_bytes := download_bytes m;
     download_bytes_total := download_bytes_total m;
     download_speed := download_speed m; download_eta := download_eta m;
     _downloader := _downloader m;
     _active_download_lock := _active_download_lock m;
     _prev_state := _prev_state m; download_pulse := download_pulse m |}.

Definition set_download_thumbnail (v : string) (m : Model) : Model :=
  {| state := state m; mode := mode m; url := url m; error := error m;
     resolution := resolution m; download_folder := download_folder m;
     finished_download_dir := finished_download_dir m;
     finished_download_filenames := finished_download_filenames m;
     automatic_subtitles := automatic_subtitles m;
     prefer_mpeg := prefer_mpeg m;
     download_playlist_index := download_playlist_index m;
     download_playlist_count := download_playlist_count m;
     download_filename := download_filename m;
     download_title := download_title m; download_thumbnail := v;
     download_progress := download_progress m;
     download_bytes := download_bytes m;
     download_bytes_total := download_bytes_total m;
     download_speed := download_speed m; download_eta := download_eta m;
     _downloader := _downloader m;
     _active_download_lock := _active_download_lock m;
     _prev_state := _prev_state m; download_pulse := download_pulse m |}.

Definition set_download_progress (v : float) (m : Model) : Model :=
  {| state := state m; mode := mode m; url := url m; error := error m;
     resolution := resolution m; download_folder := download_folder m;
     finished_download_dir := finished_download_dir m;
     finished_download_filenames := finished_download_filenames m;
     automatic_subtitles := automatic_subtitles m;
     prefer_mpeg := prefer_mpeg m;
     download_playlist_index := download_playlist_index m;
     download_playlist_count := download_playlist_count m;
     download_filename := download_filename m;
     download_title := download_title m;
     download_thumbnail := download_thumbnail m; download_progress := v;
     download_bytes := download_bytes m;
     download_bytes_total := download_bytes_total m;
     download_speed := download_speed m; download_eta := download_eta m;
     _downloader := _downloader m;
     _active_download_lock := _active_download_lock m;
     _prev_state := _prev_state m; download_pulse := download_pulse m |}.

Definition set_download_bytes (v : Z) (m : Model) : Model :=
  {| state := state m; mode := mode m; url := url m; error := error m;
     resolution := resolution m; download_folder := download_folder m;
     finished_download_dir := finished_download_dir m;
     finished_download_filenames := finished_download_filenames m;
     automatic_subtitles := automatic_subtitles m;
     prefer_mpeg := prefer_mpeg m;
     download_playlist_index := download_playlist_index m;
     download_playlist_count := download_playlist_count m;
     download_filename := download_filename m;
     download_title := download_title m;
     download_thumbnail := download_thumbnail m;
     download_progress := download_progress m; download_bytes := v;
     download_bytes_total := download_bytes_total m;
     download_speed := download_speed m; download_eta := download_eta m;
     _downloader := _downloader m;
     _active_download_lock := _active_download_lock m;
     _prev_state := _prev_state m; download_pulse := download_pulse m |}.

Definition set_download_bytes_total (v : Z) (m : Model) : Model :=
  {| state := state m; mode := mode m; url := url m; error := error m;
     resolution := resolution m; download_folder := download_folder m;
     finished_download_dir := finished_download_dir m;
     finished_download_filenames := finished_download_filenames m;
     automatic_subtitles := automatic_subtitles m;
     prefer_mpeg := prefer_mpeg m;
     download_playlist_index := download_playlist_index m;
     download_playlist_count := download_playlist_count m;
     download_filename := download_filename m;
     download_title := download_title m;
     download_thumbnail := download_thumbnail m;
     download_progress := download_progress m;
     download_bytes := download_bytes m; download_bytes_total := v;
     download_speed := download_speed m; download_eta := download_eta m;
     _downloader := _downloader m;
     _active_download_lock := _active_download_lock m;
     _prev_state := _prev_state m; download_pulse := download_pulse m |}.

Definition set_download_speed (v : Z) (m : Model) : Model :=
  {| state := state m; mode := mode m; url := url m; error := error m;
     resolution := resolution m; download_folder := download_folder m;
     finished_download_dir := finished_download_dir m;
     finished_download_filenames := finished_download_filenames m;
     automatic_subtitles := automatic_subtitles m;
     prefer_mpeg := prefer_mpeg m;
     download_playlist_index := download_playlist_index m;
     download_playlist_count := download_playlist_count m;
     download_filename := download_filename m;
     download_title := download_title m;
     download_thumbnail := download_thumbnail m;
     download_progress := download_progress m;
     download_bytes := download_bytes m;
     download_bytes_total := download_bytes_total m; download_speed := v;
     download_eta := download_eta m; _downloader := _downloader m;
     _active_download_lock := _active_download_lock m;
     _prev_state := _prev_state m; download_pulse := download_pulse m |}.

Definition set_download_eta (v : Z) (m : Model) : Model :=
  {| state := state m; mode := mode m; url := url m; error := error m;
     resolution := resolution m; download_folder := download_folder m;
     finished_download_dir := finished_download_dir m;
     finished_download_filenames := finished_download_filenames m;
     automatic_subtitles := automatic_subtitles m;
     prefer_mpeg := prefer_mpeg m;
     download_playlist_index := download_playlist_index m;
     download_playlist_count := download_playlist_count m;
     download_filename := download_filename m;
     download_title := download_title m;
     download_thumbnail := download_thumbnail m;
     download_progress := download_progress m;
     download_bytes := download_bytes m;
     download_bytes_total := download_bytes_total m;
     download_speed := download_speed m; download_eta := v;
     _downloader := _downloader m;
     _active_download_lock := _active_download_lock m;
     _prev_state := _prev_state m; download_pulse := download_pulse m |}.

Definition set_downloader (v : list downloader_call) (m : Model) : Model :=
  {| state := state m; mode := mode m; url := url m; error := error m;
     resolution := resolution m; download_folder := download_folder m;
     finished_download_dir := finished_download_dir m;
     finished_download_filenames := finished_download_filenames m;
     automatic_subtitles := automatic_subtitles m;
     prefer_mpeg := prefer_mpeg m;
     download_playlist_index := download_playlist_index m;
     download_playlist_count := download_playlist_count m;
     download_filename := download_filename m;
     download_title := download_title m;
     download_thumbnail := download_thumbnail m;
     download_progress := download_progress m;
     download_bytes := download_bytes m;
     download_bytes_total := download_bytes_total m;
     download_speed := download_speed m; download_eta := download_eta m;
     _downloader := v; _active_download_lock := _active_download_lock m;
     _prev_state := _prev_state m; download_pulse := download_pulse m |}.

Definition set_active_download_lock (v : option string) (m : Model) : Model :=
  {| state := state m; mode := mode m; url := url m; error := error m;
     resolution := resolution m; download_folder := download_folder m;
     finished_download_dir := finished_download_dir m;
     finished_download_filenames := finished_download_filenames m;
     automatic_subtitles := automatic_subtitles m;
     prefer_mpeg := prefer_mpeg m;
     download_playlist_index := download_playlist_index m;
     download_playlist_count := download_playlist_count m;
     download_filename := download_filename m;
     download_title := download_title m;
     download_thumbnail := download_thumbnail m;
     download_progress := download_progress m;
     download_bytes := download_bytes m;
     download_bytes_total := download_bytes_total m;
     download_speed := download_speed m; download_eta := download_eta m;
     _downloader := _downloader m; _active_download_lock := v;
     _prev_state := _prev_state m; download_pulse := download_pulse m |}.

Definition set_prev_state (v : option string) (m : Model) : Model :=
  {| state := state m; mode := mode m; url := url m; error := error m;
     resolution := resolution m; download_folder := download_folder m;
     finished_download_dir := finished_download_dir m;
     finished_download_filenames := finished_download_filenames m;
     automatic_subtitles := automatic_subtitles m;
     prefer_mpeg := prefer_mpeg m;
     download_playlist_index := download_playlist_index m;
     download_playlist_count := download_playlist_count m;
     download_filename := download_filename m;
     download_title := download_title m;
     download_thumbnail := download_thumbnail m;
     download_progress := download_progress m;
     download_bytes := download_bytes m;
     download_bytes_total := download_bytes_total m;
     download_speed := download_speed m; download_eta := download_eta m;
     _downloader := _downloader m;
     _active_download_lock := _active_download_lock m; _prev_state := v;
     download_pulse := download_pulse m |}.

Definition set_download_pulse (v : nat) (m : Model) : Model :=
  {| state := state m; mode := mode m; url := url m; error := error m;
     resolution := resolution m; download_folder := download_folder m;
     finished_download_dir := finished_download_dir m;
     finished_download_filenames := finished_download_filenames m;
     automatic_subtitles := automatic_subtitles m;
     prefer_mpeg := prefer_mpeg m;
     download_playlist_index := download_playlist_index m;
     download_playlist_count := download_playlist_count m;
     download_filename := download_filename m;
     download_title := download_title m;
     download_thumbnail := download_thumbnail m;
     download_progress := download_progress m;
     download_bytes := download_bytes m;
     download_bytes_total := download_bytes_total m;
     download_speed := download_speed m; download_eta := download_eta m;
     _downloader := _downloader m;
     _active_download_lock := _active_download_lock m;
     _prev_state := _prev_state m; download_pulse := v |}.

(** ** Running a method

    A method runs on its own instance ([self]) and on the class attribute
    [_global_download_lock], the one set shared by every instance. *)
Definition Heap : Type := Model * gset string.

Definition M (A : Type) : Type := Heap -> result (A * Heap).

#[global] Instance M_ret : MRet M := fun A a h => Ok (a, h).

#[global] Instance M_bind : MBind M := fun A B f c h =>
  match c h with
  | Ok (a, h') => f a h'
  | Raise e => Raise e
  end.

Definition raise {A : Type} (e : exn) : M A := fun _ => Raise e.

(** [assert b] *)
Definition assert (b : bool) : M unit :=
  if b then mret tt else raise AssertionError.

(** Read an attribute of [self]. *)
Definition self_get {A : Type} (f : Model -> A) : M A :=
  fun h => Ok (f (fst h), h).

(** Assign an attribute of [self]. *)
Definition self_set (upd : Model -> Model) : M unit :=
  fun h => Ok (tt, (upd (fst h), snd h)).

Definition global_lock_get : M (gset string) :=
  fun h => Ok (snd h, h).

Definition global_lock_set (s : gset string) : M unit :=
  fun h => Ok (tt, (fst h, s)).

(** [x in l] for a list of string literals. *)
Definition str_in (x : string) (l : list string) : bool :=
  existsb (String.eqb x) l.

(** [o == s] for an attribute that is [None] or a string. *)
Definition opt_is (o : option string) (s : string) : bool :=
  match o with
  | Some x => String.eqb x s
  | None => false
  end.

(** Python truthiness of an attribute that is [None] or a string: [None]
    and the empty string are both false. *)
Definition truthy (o : option string) : bool :=
  match o with
  | Some x => negb (String.eqb x "")
  | None => false
  end.

(** [l or []] for a [TYPE_STRV] property. *)
Definition or_nil (l : option (list string)) : list string :=
  match l with
  | Some xs => xs
  | None => []
  end.

(** Storing into a [TYPE_INT64] property: a Python integer outside the
    64-bit signed range is refused. *)
Definition INT64_MIN : Z := - 2 ^ 63.
Definition INT64_MAX : Z := 2 ^ 63 - 1.

Definition int64 (v : Z) : M Z :=
  if (INT64_MIN <=? v) && (v <=? INT64_MAX) then mret v
  else raise OverflowError.

(** [self._global_download_lock.add(name)] *)
Definition global_lock_add (name : string) : M unit :=
  held ← global_lock_get;
  global_lock_set ({[name]} ∪ held).

(** [self._global_download_lock.remove(name)]: [set.remove] raises
    [KeyError] when the element is missing. *)
Definition global_lock_remove (name : string) : M unit :=
  held ← global_lock_get;
  if decide (name ∈ held) then global_lock_set (held ∖ {[name]})
  else raise KeyError.

(** [self._downloader.start()], [.cancel()], [.shutdown()] *)
Definition downloader_do (c : downloader_call) : M unit :=
  calls ← self_get _downloader;
  self_set (set_downloader (calls ++ [c])%list).

(** The observer behind [self._handler]: the three blocking requests of
    the [Handler] class, each answering or raising. *)
Class Handler : Type := {
  handler_on_playlist_request : result bool;
  handler_on_login_request : result (string * string);
  handler_on_videopassword_request : result string
}.

Definition ask {A : Type} (r : result A) : M A :=
  fun h => match r with Ok a => Ok (a, h) | Raise e => Raise e end.

(** The object as the class body declares it, before [__init__] binds the
    [state] property. *)
Definition defaults : Model :=
  {| state := "start"; mode := "audio"; url := ""; error := "";
     resolution := 1080; download_folder := "";
     finished_download_dir := ""; finished_download_filenames := None;
     automatic_subtitles := None; prefer_mpeg := false;
     download_playlist_index := 0; download_playlist_count := 0;
     download_filename := ""; download_title := "";
     download_thumbnail := ""; download_progress := (-1)%float;
     download_bytes := -1; download_bytes_total := -1;
     download_speed := -1; download_eta := -1;
     _downloader := []; _active_download_lock := None;
     _prev_state := None; download_pulse := 0%nat |}.

(** ** The methods of [Model] *)

Section Methods.

(** [video_downloader.util.expand_path] and [languages_from_locale] are
    not part of this file; the methods are parameterised by them. *)
Variable expand_path : string -> string.
Variable languages_from_locale : list string.
Context {handler : Handler}.

(** [Model._state_transition] *)
Definition _state_transition (st : string) : M unit :=
  (if String.eqb st "start" then
     prev ← self_get _prev_state;
     assert (negb (opt_is prev "download"));;
     self_set (set_error "");;
     self_set (set_download_playlist_index 0);;
     self_set (set_download_playlist_count 0);;
     self_set (set_download_filename "");;
     self_set (set_download_title "");;
     self_set (set_download_thumbnail "");;
     self_set (set_download_progress (-1)%float);;
     self_set (set_download_bytes (-1));;
     self_set (set_download_bytes_total (-1));;
     self_set (set_download_speed (-1));;
     self_set (set_download_eta (-1));;
     self_set (set_finished_download_filenames (Some []));;
     self_set (set_finished_download_dir "")
   else if String.eqb st "download" then
     prev ← self_get _prev_state;
     assert (opt_is prev "start");;
     folder ← self_get download_folder;
     self_set (set_finished_download_dir (expand_path folder));;
     downloader_do Downloader_start
   else if String.eqb st "cancel" then
     prev ← self_get _prev_state;
     assert (opt_is prev "download");;
     downloader_do Downloader_cancel
   else if str_in st ["success"; "error"] then
     prev ← self_get _prev_state;
     assert (opt_is prev "download")
   else
     raise AssertionError);;
  self_set (set_prev_state (Some st)).

(** Modelled from the spec: [bind_property] of [video_downloader.util]
    is missing; the spec describes the coupling as side effects bound to
    the property setter.  Assigning [state] stores the value and then
    runs [_state_transition] on it, also when the value is unchanged. *)
Definition set_property_state (st : string) : M unit :=
  self_set (set_state st);;
  _state_transition st.

(** [Model.__init__]: a fresh object with the class defaults;
    [bind_property] applies the binding once when it is set up, so the
    object goes through [_state_transition] at its default state. *)
Definition __init__ : result Model :=
  match _state_transition (state defaults) (defaults, ∅) with
  | Ok (_, h) => Ok (fst h)
  | Raise e => Raise e
  end.

(** The entries of [self.actions]. *)
Definition action_download : M unit := set_property_state "download".
Definition action_cancel : M unit := set_property_state "cancel".
Definition action_back : M unit := set_property_state "start".

(** [Model.shutdown] *)
Definition shutdown : M unit :=
  downloader_do Downloader_shutdown.

(** The guard that opens every callback:
    [assert self.state in ['download', 'cancel']]. *)
Definition assert_active : M unit :=
  st ← self_get state;
  assert (str_in st ["download"; "cancel"]).

(** [Model.on_pulse] *)
Definition on_pulse : M unit :=
  assert_active;;
  n ← self_get download_pulse;
  self_set (set_download_pulse (S n)).

(** [Model._download_unlock] *)
Definition _download_unlock : M unit :=
  lock ← self_get _active_download_lock;
  if truthy lock then
    match lock with
    | Some name => global_lock_remove name
    | None => mret tt
    end;;
    self_set (set_active_download_lock None)
  else mret tt.

(** [Model.on_finished] *)
Definition on_finished (success : bool) : M unit :=
  assert_active;;
  _download_unlock;;
  st ← self_get state;
  if String.eqb st "cancel" then
    set_property_state "start"
  else
    set_property_state (if success then "success" else "error").

(** The read-only accessors the engine uses. *)
Definition get_download_dir : M string :=
  assert_active;; self_get finished_download_dir.

Definition get_prefer_mpeg : M bool :=
  assert_active;; self_get prefer_mpeg.

Definition get_automatic_subtitles : M (list string) :=
  assert_active;;
  subs ← self_get automatic_subtitles;
  mret (languages_from_locale ++ or_nil subs)%list.

Definition get_url : M string :=
  assert_active;; self_get url.

Definition get_mode : M string :=
  assert_active;; self_get mode.

Definition get_resolution : M Z :=
  assert_active;; self_get resolution.

(** The requests proxied to the observer. *)
Definition on_playlist_request : M bool :=
  assert_active;; ask handler_on_playlist_request.

Definition on_login_request : M (string * string) :=
  assert_active;; ask handler_on_login_request.

Definition on_videopassword_request : M string :=
  assert_active;; ask handler_on_videopassword_request.

(** [Model.on_error] *)
Definition on_error (msg : string) : M unit :=
  assert_active;;
  self_set (set_error msg).

(** [Model.on_progress] *)
Definition on_progress (filename : string) (progress : float)
    (bytes_ bytes_total eta speed : Z) : M unit :=
  assert_active;;
  self_set (set_download_filename filename);;
  self_set (set_download_progress progress);;
  b ← int64 bytes_; self_set (set_download_bytes b);;
  t ← int64 bytes_total; self_set (set_download_bytes_total t);;
  e ← int64 eta; self_set (set_download_eta e);;
  s ← int64 speed; self_set (set_download_speed s).

(** [Model.on_download_start] *)
Definition on_download_start (playlist_index playlist_count : Z)
    (title : string) : M unit :=
  assert_active;;
  i ← int64 playlist_index; self_set (set_download_playlist_index i);;
  c ← int64 playlist_count; self_set (set_download_playlist_count c);;
  self_set (set_download_title title).

(** [Model.on_download_lock] *)
Definition on_download_lock (name : string) : M bool :=
  assert_active;;
  lock ← self_get _active_download_lock;
  assert (match lock with None => true | Some _ => false end);;
  held ← global_lock_get;
  if decide (name ∈ held) then
    mret false
  else
    global_lock_add name;;
    self_set (set_active_download_lock (Some name));;
    mret true.

(** [Model.on_download_thumbnail] *)
Definition on_download_thumbnail (thumbnail : string) : M unit :=
  assert_active;;
  self_set (set_download_thumbnail thumbnail).

(** [Model.on_download_finished] *)
Definition on_download_finished (filename : string) : M unit :=
  assert_active;;
  _download_unlock;;
  names ← self_get finished_download_filenames;
  self_set (set_finished_download_filenames (Some (or_nil names ++ [filename])%list)).

End Methods.

(** ** The interface as a set of calls *)

(** Every way the application or the engine can drive an instance: the
    assignments to the request properties and to [state], [shutdown], and
    the callbacks of [downloader.Handler]. *)
Inductive call : Type :=
| Set_mode (v : string)
| Set_url (v : string)
| Set_resolution (v : Z)
| Set_download_folder (v : string)
| Set_automatic_subtitles (v : option (list string))
| Set_prefer_mpeg (v : bool)
| Set_state (st : string)
| Shutdown
| On_pulse
| On_finished (success : bool)
| Get_download_dir
| Get_prefer_mpeg
| Get_automatic_subtitles
| Get_url
| Get_mode
| Get_resolution
| On_playlist_request
| On_login_request
| On_videopassword_request
| On_error (msg : string)
| On_progress (filename : string) (progress : float)
    (bytes_ bytes_total eta speed : Z)
| On_download_start (playlist_index playlist_count : Z) (title : string)
| On_download_lock (name : string)
| On_download_thumbnail (thumbnail : string)
| On_download_finished (filename : string).

(** The callbacks the engine makes, as opposed to what the application
    does. *)
Definition is_callback (c : call) : bool :=
  match c with
  | Set_mode _ | Set_url _ | Set_resolution _ | Set_download_folder _
  | Set_automatic_subtitles _ | Set_prefer_mpeg _ | Set_state _
  | Shutdown => false
  | _ => true
  end.

(** Run a method for its effect, dropping what it returns. *)
Definition void {A : Type} (c : M A) : M unit := c;; mret tt.

Section Exec.

Variable expand_path : string -> string.
Variable languages_from_locale : list string.
Context {handler : Handler}.

Definition exec (c : call) : M unit :=
  match c with
  | Set_mode v => self_set (set_mode v)
  | Set_url v => self_set (set_url v)
  | Set_resolution v => self_set (set_resolution v)
  | Set_download_folder v => self_set (set_download_folder v)
  | Set_automatic_subtitles v => self_set (set_automatic_subtitles v)
  | Set_prefer_mpeg v => self_set (set_prefer_mpeg v)
  | Set_state st => set_property_state expand_path st
  | Shutdown => shutdown
  | On_pulse => on_pulse
  | On_finished success => on_finished expand_path success
  | Get_download_dir => void get_download_dir
  | Get_prefer_mpeg => void get_prefer_mpeg
  | Get_automatic_subtitles =>
      void (get_automatic_subtitles languages_from_locale)
  | Get_url => void get_url
  | Get_mode => void get_mode
  | Get_resolution => void get_resolution
  | On_playlist_request => void on_playlist_request
  | On_login_request => void on_login_request
  | On_videopassword_request => void on_videopassword_request
  | On_error msg => on_error msg
  | On_progress f p b t e s => on_progress f p b t e s
  | On_download_start i n t => on_download_start i n t
  | On_download_lock name => void (on_download_lock name)
  | On_download_thumbnail t => on_download_thumbnail t
  | On_download_finished f => on_download_finished f
  end.

End Exec.

(** ** Several instances in one process *)

(** The instances alive in the process and the lock set they share. *)
Record Process : Type := mkProcess {
  instances : list Model;
  _global_download_lock : gset string
}.

Section Run.

Variable expand_path : string -> string.
Variable languages_from_locale : list string.
Context {handler : Handler}.

(** One step of the process: a new instance is constructed, or instance
    [i] completes a call.  A call that raises ends the run. *)
Inductive step (p : Process) : Process -> Prop :=
| step_new m :
    __init__ expand_path = Ok m ->
    step p (mkProcess (instances p ++ [m]) (_global_download_lock p))
| step_call (i : nat) c m m' held' :
    instances p !! i = Some m ->
    exec expand_path languages_from_locale c (m, _global_download_lock p)
      = Ok (tt, (m', held')) ->
    step p (mkProcess (<[i:=m']> (instances p)) held').

Inductive reachable : Process -> Prop :=
| reachable_start : reachable (mkProcess [] ∅)
| reachable_step p q : reachable p -> step p q -> reachable q.

End Run.

(** ** Predicates the properties are stated with *)

(** The five values [_state_transition] accepts. *)
Definition states : list string :=
  ["start"; "download"; "cancel"; "success"; "error"].

(** The rows of the transition table, as (from, to) pairs. *)
Definition transition_table : list (string * string) :=
  [("start", "download"); ("download", "cancel"); ("download", "success");
   ("download", "error"); ("cancel", "start"); ("success", "start");
   ("error", "start")].

Definition in_table (from to : string) : bool :=
  existsb (fun p => String.eqb from (fst p) && String.eqb to (snd p))
    transition_table.

(** The instance is between two completed transitions: [_prev_state]
    records the value of [state]. *)
Definition synced (m : Model) : Prop :=
  _prev_state m = Some (state m).

(** The state in which the callbacks are accepted. *)
Definition active (m : Model) : Prop :=
  state m = "download" \/ state m = "cancel".

(** The values entering ['start'] assigns. *)
Definition at_reset (m : Model) : Prop :=
  error m = "" /\
  download_playlist_index m = 0 /\
  download_playlist_count m = 0 /\
  download_filename m = "" /\
  download_title m = "" /\
  download_thumbnail m = "" /\
  download_progress m = (-1)%float /\
  download_bytes m = -1 /\
  download_bytes_total m = -1 /\
  download_speed m = -1 /\
  download_eta m = -1 /\
  or_nil (finished_download_filenames m) = [] /\
  finished_download_dir m = "".

(** The thirteen assignments of the ['start'] branch, in order. *)
Definition reset_telemetry (m : Model) : Model :=
  set_finished_download_dir ""
    (set_finished_download_filenames (Some [])
      (set_download_eta (-1)
        (set_download_speed (-1)
          (set_download_bytes_total (-1)
            (set_download_bytes (-1)
              (set_download_progress (-1)%float
                (set_download_thumbnail ""
                  (set_download_title ""
                    (set_download_filename ""
                      (set_download_playlist_count 0
                        (set_download_playlist_index 0
                          (set_error "" m)))))))))))).

(** What holds of every instance between calls. *)
Definition instance_ok (m : Model) : Prop :=
  synced m /\
  str_in (state m) states = true /\
  (finished_download_dir m = "" <-> state m = "start").

(** What holds of the process between calls: every instance is
    consistent, a claimed name is in the shared set, no two instances claim
    the same name, and the shared set holds claimed names only. *)
Definition process_ok (p : Process) : Prop :=
  (forall i m, instances p !! i = Some m -> instance_ok m) /\
  (forall i m k, instances p !! i = Some m ->
     _active_download_lock m = Some k -> k ∈ _global_download_lock p) /\
  (forall i j m1 m2 k, instances p !! i = Some m1 ->
     instances p !! j = Some m2 ->
     _active_download_lock m1 = Some k ->
     _active_download_lock m2 = Some k -> i = j) /\
  (forall k, k ∈ _global_download_lock p ->
     exists i m, instances p !! i = Some m /\
       _active_download_lock m = Some k).

(** How one call can change the instance's claim and the shared set. *)
Inductive lock_effect (m : Model) (held : gset string)
    (m' : Model) (held' : gset string) : Prop :=
| lock_untouched :
    _active_download_lock m' = _active_download_lock m ->
    held' = held ->
    lock_effect m held m' held'
| lock_acquired k :
    _active_download_lock m = None ->
    k ∉ held ->
    _active_download_lock m' = Some k ->
    held' = {[k]} ∪ held ->
    lock_effect m held m' held'
| lock_released k :
    _active_download_lock m = Some k ->
    k ∈ held ->
    _active_download_lock m' = None ->
    held' = held ∖ {[k]} ->
    lock_effect m held m' held'.

(** A call sequence run on one instance, stopping at the first
    exception. *)
Fixpoint exec_all (expand_path : string -> string)
    (languages_from_locale : list string) {handler : Handler}
    (cs : list call) (h : Heap) : result Heap :=
  match cs with
  | [] => Ok h
  | c :: cs' =>
      match exec expand_path languages_from_locale c h with
      | Ok (_, h') => exec_all expand_path languages_from_locale cs' h'
      | Raise e => Raise e
      end
  end.

(** ** A concrete environment for the examples *)

Definition home_expand_path (path : string) : string :=
  "/home/user/" ++ path.

Definition locale_languages : list string := ["en"].

#[global] Instance silent_handler : Handler :=
  {| handler_on_playlist_request := Ok false;
     handler_on_login_request := Ok ("", "");
     handler_on_videopassword_request := Ok "" |}.

(** A new instance, and what it becomes after the given calls, with the
    shared set it leaves; [defaults] stands in if the run raises. *)
Definition fresh : Model :=
  match __init__ home_expand_path with
  | Ok m => m
  | Raise _ => defaults
  end.

Definition after (cs : list call) (h : Heap) : Heap :=
  match exec_all home_expand_path locale_languages cs h with
  | Ok h' => h'
  | Raise _ => (defaults, ∅)
  end.

(** A new instance that has started a download, alone in the process,
    and the same after it has claimed the name [k]. *)
Definition downloading : Heap :=
  after [Set_state "download"] (fresh, ∅).

Definition holding (k : string) : Heap :=
  after [Set_state "download"; On_download_lock k] (fresh, ∅).

(** ** The vocabulary of the lock contract *)

(** The method [op], run by the instance, releases the name [k]: it
    returns, [k] has left the shared set and the instance claims
    nothing. *)
Definition releases (op : M unit) (m : Model) (held : gset string)
    (k : string) : Prop :=
  exists m' held',
    op (m, held) = Ok (tt, (m', held')) /\
    (k ∉ held') /\ _active_download_lock m' = None.

(** Assigning [st] to [state] fails an assertion. *)
Definition refused (expand_path : string -> string) (st : string)
    (m : Model) (held : gset string) : Prop :=
  set_property_state expand_path st (m, held) = Raise AssertionError.

(** A claimed name is in the shared set. *)
Definition claim_registered (m : Model) (held : gset string) : Prop :=
  forall k, _active_download_lock m = Some k -> k ∈ held.

(** Where [on_finished] goes from an accepted state. *)
Definition finished_state (st : string) (success : bool) : string :=
  if String.eqb st "cancel" then "start"
  else if success then "success" else "error".

(** ** The rest of the class *)

(** The [Handler] base class at the end of the file: each of its three
    methods raises [NotImplementedError]. *)
Definition base_Handler : Handler :=
  {| handler_on_playlist_request := Raise NotImplementedError;
     handler_on_login_request := Raise NotImplementedError;
     handler_on_videopassword_request := Raise NotImplementedError |}.

(** The [enabled] flag bound to the actions in [__init__]: the function
    of the bound property that the source passes to [bind_property]
    ([bool] of [url]; [s == 'download']; [s == 'success']). *)
Definition download_enabled (m : Model) : bool :=
  negb (String.eqb (url m) "").

Definition cancel_enabled (m : Model) : bool :=
  String.eqb (state m) "download".

Definition open_finished_download_dir_enabled (m : Model) : bool :=
  String.eqb (state m) "success".

(** The two methods of [org.freedesktop.FileManager1] the class calls. *)
Inductive filemanager_method : Set :=
| ShowItems
| ShowFolders.

(** What [_open_finished_download_dir] does on the desktop, in order:
    the D-Bus call, the logged warning, the [xdg-open] subprocess. *)
Inductive desktop_call : Set :=
| Filemanager_call (method : filemanager_method) (uris : list string)
| Log_warning
| Xdg_open (dir : string).

Section Desktop.

(** The collaborators of [_open_finished_download_dir], none of them
    part of this file: [os.path.join], [Gio.File.new_for_path(p).get_uri()],
    whether [call_sync] returns ([false]: it raises [GLib.Error]), and
    what [subprocess.run(['xdg-open', dir], check=True)] does. *)
Variable os_path_join : string -> string -> string.
Variable get_uri : string -> string.
Variable call_sync : filemanager_method -> list string -> bool.
Variable xdg_open : string -> result unit.

(** [Model._open_finished_download_dir]; it returns the desktop calls it
    made. *)
Definition _open_finished_download_dir : M (list desktop_call) :=
  dir ← self_get finished_download_dir;
  assert (negb (String.eqb dir ""));;
  names ← self_get finished_download_filenames;
  dir ← self_get finished_download_dir;
  let request :=
    if Nat.eqb (length (or_nil names)) 1
    then (ShowItems, map (os_path_join dir) (or_nil names))
    else (ShowFolders, [dir]) in
  let uris := map get_uri (snd request) in
  if call_sync (fst request) uris then
    mret [Filemanager_call (fst request) uris]
  else
    dir ← self_get finished_download_dir;
    ask (xdg_open dir);;
    mret [Filemanager_call (fst request) uris; Log_warning; Xdg_open dir].

End Desktop.

(** ** Runs of a whole process *)

(** What happens in a process: a new instance is constructed, or
    instance [i] is called. *)
Inductive event : Type :=
| New
| Call (i : nat) (c : call).

Section RunProcess.

Variable expand_path : string -> string.
Variable languages_from_locale : list string.
Context {handler : Handler}.

(** One event, run: [None] when the call raises or there is no instance
    [i]. *)
Definition run_event (e : event) (p : Process) : option Process :=
  match e with
  | New =>
      match __init__ expand_path with
      | Ok m => Some (mkProcess (instances p ++ [m]) (_global_download_lock p))
      | Raise _ => None
      end
  | Call i c =>
      match instances p !! i with
      | Some m =>
          match exec expand_path languages_from_locale c
                  (m, _global_download_lock p) with
          | Ok (_, h) => Some (mkProcess (<[i:=fst h]> (instances p)) (snd h))
          | Raise _ => None
          end
      | None => None
      end
  end.

Fixpoint run_events (es : list event) (p : Process) : option Process :=
  match es with
  | [] => Some p
  | e :: es' =>
      match run_event e p with
      | Some q => run_events es' q
      | None => None
      end
  end.

End RunProcess.

(** The process after the given events, from the empty process, in the
    environment of the examples; the empty process stands in if the run
    stops. *)
Definition process_after (es : list event) : Process :=
  match run_events home_expand_path locale_languages es (mkProcess [] ∅) with
  | Some p => p
  | None => mkProcess [] ∅
  end.

(** Two instances downloading, the first holding the name ["k"]. *)
Definition two_downloads : list event :=
  [New; New; Call 0 (Set_state "download"); Call 1 (Set_state "download");
   Call 0 (On_download_lock "k")].

(** Instances for the examples: a request with a url; a download with
    a start, progress and one finished file; a download finished with one
    file; a download that holds [k] and is being cancelled. *)
Definition requested : Heap :=
  (set_url "https://example.org/v" fresh, ∅).

Definition sample_callbacks : list call :=
  [Set_state "download"; On_download_start 0 1 "T";
   On_progress "f" 0.5%float 500 1000 10 50; On_download_finished "f"].

Definition finished_one : Heap :=
  after [Set_state "download"; On_download_finished "f"; On_finished true]
    (fresh, ∅).

Definition cancelling (k : string) : Heap :=
  after [Set_state "download"; On_download_lock k; Set_state "cancel"]
    (fresh, ∅).

(** ** More vocabulary *)

(** The request parameters, which the application sets. *)
Definition request (m : Model)
    : string * string * Z * string * option (list string) * bool :=
  (mode m, url m, resolution m, download_folder m, automatic_subtitles m,
   prefer_mpeg m).

(** The calls that assign a request parameter. *)
Definition sets_request (c : call) : bool :=
  match c with
  | Set_mode _ | Set_url _ | Set_resolution _ | Set_download_folder _
  | Set_automatic_subtitles _ | Set_prefer_mpeg _ => true
  | _ => false
  end.

(** The calls made on the engine, [shutdown] left out. *)
Definition is_shutdown (c : downloader_call) : bool :=
  match c with
  | Downloader_shutdown => true
  | _ => false
  end.

Definition lifecycle_calls (m : Model) : list downloader_call :=
  List.filter (fun c => negb (is_shutdown c)) (_downloader m).

(** What [on_progress] reports. *)
Definition progress_report (m : Model)
    : string * float * Z * Z * Z * Z :=
  (download_filename m, download_progress m, download_bytes m,
   download_bytes_total m, download_eta m, download_speed m).

Definition is_on_progress (c : call) : bool :=
  match c with
  | On_progress _ _ _ _ _ _ => true
  | _ => false
  end.

(** [state] holds one of the five values and [_prev_state] records it. *)
Definition tracked (m : Model) : Prop :=
  synced m /\ str_in (state m) states = true.

(** The last call on the engine matches the state: [start] while in
    ['download'], [cancel] while in ['cancel']. *)
Definition engine_in_step (m : Model) : Prop :=
  (state m = "download" ->
     last (lifecycle_calls m) = Some Downloader_start) /\
  (state m = "cancel" ->
     last (lifecycle_calls m) = Some Downloader_cancel).

(** The part of [process_ok] on the claims: a claimed name is in the
    shared set, no two instances claim the same name, and the shared set
    holds claimed names only. *)
Definition claims_ok (p : Process) : Prop :=
  (forall i m k, instances p !! i = Some m ->
     _active_download_lock m = Some k -> k ∈ _global_download_lock p) /\
  (forall i j m1 m2 k, instances p !! i = Some m1 ->
     instances p !! j = Some m2 ->
     _active_download_lock m1 = Some k ->
     _active_download_lock m2 = Some k -> i = j) /\
  (forall k, k ∈ _global_download_lock p ->
     exists i m, instances p !! i = Some m /\
       _active_download_lock m = Some k).

(** ** Proof support *)

Create HintDb methods.

Arguments _state_transition : simpl never.
Arguments reset_telemetry : simpl never.

#[export] Hint Unfold exec void set_property_state action_download
  action_cancel action_back shutdown on_pulse on_finished get_download_dir
  get_prefer_mpeg get_automatic_subtitles get_url get_mode get_resolution
  on_playlist_request on_login_request on_videopassword_request on_error
  on_progress on_download_start on_download_lock on_download_thumbnail
  on_download_finished _download_unlock assert_active
  downloader_do global_lock_add global_lock_remove global_lock_get
  global_lock_set self_get self_set int64 ask assert raise mbind M_bind mret
  M_ret : methods.

(** Unfold the methods down to the heap function and evaluate, using the
    equations in the context on the fields that block evaluation. *)
Ltac mrun :=
  repeat autounfold with methods in *; cbn in *;
  repeat (match goal with
          | H : ?a = _ |- context [?a] => rewrite H
          end; cbn).

(** [_state_transition] branch by branch: the instance it leaves, or the
    failed assertion. *)
Lemma _state_transition_run expand_path st m held :
  _state_transition expand_path st (m, held) =
  if String.eqb st "start" then
    if negb (opt_is (_prev_state m) "download")
    then Ok (tt, (set_prev_state (Some "start") (reset_telemetry m), held))
    else Raise AssertionError
  else if String.eqb st "download" then
    if opt_is (_prev_state m) "start"
    then Ok (tt, (set_prev_state (Some "download")
                    (set_downloader (_downloader m ++ [Downloader_start])
                       (set_finished_download_dir
                          (expand_path (download_folder m)) m)), held))
    else Raise AssertionError
  else if String.eqb st "cancel" then
    if opt_is (_prev_state m) "download"
    then Ok (tt, (set_prev_state (Some "cancel")
                    (set_downloader (_downloader m ++ [Downloader_cancel]) m),
                  held))
    else Raise AssertionError
  else if str_in st ["success"; "error"] then
    if opt_is (_prev_state m) "download"
    then Ok (tt, (set_prev_state (Some st) m, held))
    else Raise AssertionError
  else Raise AssertionError.
Proof.
  unfold _state_transition.
  destruct (String.eqb_spec st "start") as [->|_].
  { repeat autounfold with methods; cbn.
    destruct (opt_is (_prev_state m) "download"); reflexivity. }
  destruct (String.eqb_spec st "download") as [->|_].
  { repeat autounfold with methods; cbn.
    destruct (opt_is (_prev_state m) "start"); reflexivity. }
  destruct (String.eqb_spec st "cancel") as [->|_].
  { repeat autounfold with methods; cbn.
    destruct (opt_is (_prev_state m) "download"); reflexivity. }
  destruct (str_in st ["success"; "error"]).
  { repeat autounfold with methods; cbn.
    destruct (opt_is (_prev_state m) "download"); reflexivity. }
  reflexivity.
Qed.

(** Use the equations known about the fields of an instance in [H]. *)
Ltac mfields H :=
  repeat match goal with
         | E : ?f ?m = _ |- _ => is_var m; progress rewrite E in H
         end.

(** Split the run in [H] at every test it depends on: boolean arguments,
    string comparisons, the optional attributes, membership in the shared
    set, and the range checks. *)
Ltac msplit H :=
  cbn in H;
  repeat (first
          [ progress mfields H
          | match type of H with
          | context [_state_transition] =>
              rewrite _state_transition_run in H
          | context [if ?b then _ else _] => is_var b; destruct b
          | context [handler_on_playlist_request] =>
              let r := fresh "r" in
              remember handler_on_playlist_request as r; destruct r
          | context [handler_on_login_request] =>
              let r := fresh "r" in
              remember handler_on_login_request as r; destruct r
          | context [handler_on_videopassword_request] =>
              let r := fresh "r" in
              remember handler_on_videopassword_request as r; destruct r
          | context [String.eqb ?a ?b] =>
              let E := fresh "E" in
              destruct (String.eqb_spec a b) as [E|E]; [try subst a |]
          | context [_prev_state ?m] =>
              is_var m; destruct (_prev_state m) eqn:?
          | context [_active_download_lock ?m] =>
              is_var m; destruct (_active_download_lock m) eqn:?
          | context [decide ?P] => destruct (decide P)
          | context [Z.leb ?a ?b] => destruct (Z.leb a b) eqn:?
          end ]; cbn in H; try discriminate H).

(** Replace each field read from an updated instance by its value. *)
Ltac mproj :=
  repeat match goal with
         | |- context [?f ?T] =>
             lazymatch type of T with Model => idtac end;
             lazymatch type of (f T) with Model => fail | _ => idtac end;
             tryif is_var T then fail else idtac;
             let v := eval cbv [reset_telemetry] in (f T) in
             let v := eval cbn in v in
             replace (f T) with v by reflexivity
         end.

(** Evaluate the run in the goal, using the equations of the context. *)
Ltac mgo :=
  repeat autounfold with methods; cbn;
  repeat (first
    [ match goal with
      | H : ?a = _ |- context [?a] => rewrite H
      end
    | rewrite _state_transition_run
    | match goal with
      | H : ?k ∈ ?s |- context [decide (?k ∈ ?s)] =>
          destruct (decide (k ∈ s)); [|contradiction]
      | H : ?k ∉ ?s |- context [decide (?k ∈ ?s)] =>
          destruct (decide (k ∈ s)); [contradiction|]
      | H : ?a <> ?b |- context [String.eqb ?a ?b] =>
          rewrite (proj2 (String.eqb_neq a b) H)
      end ]; cbn).

Lemma str_in_active (m : Model) :
  str_in (state m) ["download"; "cancel"] = true <-> active m.
Proof.
  unfold active, str_in. cbn.
  destruct (String.eqb_spec (state m) "download") as [->|];
    destruct (String.eqb_spec (state m) "cancel") as [E|]; cbn;
    try rewrite E; intuition congruence.
Qed.

Lemma str_in_states s :
  str_in s states = true <->
  s = "start" \/ s = "download" \/ s = "cancel" \/ s = "success" \/
  s = "error".
Proof.
  unfold str_in, states; cbn.
  destruct (String.eqb_spec s "start"); [tauto|].
  destruct (String.eqb_spec s "download"); [tauto|].
  destruct (String.eqb_spec s "cancel"); [tauto|].
  destruct (String.eqb_spec s "success"); [tauto|].
  destruct (String.eqb_spec s "error"); [tauto|].
  cbn. intuition congruence.
Qed.

(** The fields [reset_telemetry] leaves alone, and what it assigns. *)
Lemma reset_telemetry_state m : state (reset_telemetry m) = state m.
Proof. reflexivity. Qed.

Lemma reset_telemetry_prev_state m :
  _prev_state (reset_telemetry m) = _prev_state m.
Proof. reflexivity. Qed.

Lemma reset_telemetry_lock m :
  _active_download_lock (reset_telemetry m) = _active_download_lock m.
Proof. reflexivity. Qed.

Lemma reset_telemetry_dir m :
  finished_download_dir (reset_telemetry m) = "".
Proof. reflexivity. Qed.

Lemma reset_telemetry_at_reset m : at_reset (reset_telemetry m).
Proof. repeat split. Qed.

Lemma at_reset_set_prev_state o m :
  at_reset m -> at_reset (set_prev_state o m).
Proof. exact (fun H => H). Qed.

Section Facts.

Variable expand_path : string -> string.
Variable languages_from_locale : list string.
Context {handler : Handler}.

Local Abbreviation exec := (exec expand_path languages_from_locale).

Lemma exec_lock_effect c m held m' held' :
  exec c (m, held) = Ok (tt, (m', held')) ->
  lock_effect m held m' held'.
Proof.
  intros H. destruct c; repeat autounfold with methods in H; cbn in H;
    msplit H; injection H as <- <-; try congruence;
    try (apply lock_untouched; reflexivity);
    try (eapply lock_released; solve [eauto]);
    try (eapply lock_acquired; solve [eauto]).
Qed.

(** Every call that returns keeps the instance consistent, provided
    [expand_path] never yields the empty path. *)
Lemma exec_instance_ok c m held m' held' :
  (forall p, expand_path p <> "") ->
  instance_ok m ->
  exec c (m, held) = Ok (tt, (m', held')) ->
  instance_ok m'.
Proof.
  intros Hep (Hsync & Hst & Hdir) H. unfold synced in Hsync.
  destruct c; repeat autounfold with methods in H; cbn in H;
    msplit H; injection H as <- <-; unfold instance_ok, synced; mproj;
    try (split; [|split]; assumption).
  all: split; [reflexivity | split; [reflexivity|]].
  all: split; intros Hx; try reflexivity; try discriminate Hx; exfalso.
  all: try (apply Hep in Hx; exact Hx).
  all: apply Hdir in Hx; congruence.
Qed.

(** [_download_unlock] case by case. *)
Lemma _download_unlock_run m held :
  _download_unlock (m, held) =
  match _active_download_lock m with
  | Some k =>
      if String.eqb k "" then Ok (tt, (m, held))
      else if decide (k ∈ held)
           then Ok (tt, (set_active_download_lock None m, held ∖ {[k]}))
           else Raise KeyError
  | None => Ok (tt, (m, held))
  end.
Proof.
  repeat autounfold with methods; cbn.
  destruct (_active_download_lock m) as [k|]; cbn; [|reflexivity].
  destruct (String.eqb k ""); cbn; [reflexivity|].
  destruct (decide (k ∈ held)); reflexivity.
Qed.

(** [on_download_lock] in an accepted state with no claim. *)
Lemma on_download_lock_run name m held :
  active m ->
  _active_download_lock m = None ->
  on_download_lock name (m, held) =
  if decide (name ∈ held) then Ok (false, (m, held))
  else Ok (true, (set_active_download_lock (Some name) m,
                  {[name]} ∪ held)).
Proof.
  intros [Hst|Hst] Hnone; mgo; destruct (decide (name ∈ held));
    reflexivity.
Qed.

(** [__init__] returns, and what it returns. *)
Lemma __init___run :
  __init__ expand_path =
  Ok (set_prev_state (Some "start") (reset_telemetry defaults)).
Proof.
  unfold __init__. rewrite _state_transition_run. reflexivity.
Qed.

Lemma __init___ok m :
  __init__ expand_path = Ok m ->
  instance_ok m /\ _active_download_lock m = None.
Proof.
  rewrite __init___run. intros [= <-]. repeat split; discriminate.
Qed.

End Facts.

(** ** What every reachable process satisfies *)

Section Invariant.

Variable expand_path : string -> string.
Variable languages_from_locale : list string.
Context {handler : Handler}.
Hypothesis expand_path_nonempty : forall p, expand_path p <> "".

Lemma step_ok p q :
  process_ok p -> step expand_path languages_from_locale p q -> process_ok q.
Proof.
  intros (Hinst & Hin & Huniq & Hheld) Hstep.
  destruct Hstep as [m Hnew | i c m m' held' Hi Hexec].
  - apply __init___ok in Hnew as [Hok Hnone].
    unfold process_ok; split; [|split; [|split]]; cbn.
    + intros j mj [[_ Hj]|[_ <-]]%lookup_snoc_Some; eauto.
    + intros j mj k [[_ Hj]|[_ <-]]%lookup_snoc_Some Hk; [eauto | congruence].
    + intros j1 j2 m1 m2 k [[_ H1]|[_ <-]]%lookup_snoc_Some
        [[_ H2]|[_ <-]]%lookup_snoc_Some Hk1 Hk2; try congruence; eauto.
    + intros k Hk. destruct (Hheld k Hk) as (j & mj & Hj & Hlk).
      exists j, mj. split; [|exact Hlk].
      rewrite lookup_app_l; [exact Hj | eapply lookup_lt_Some; exact Hj].
  - pose proof (exec_instance_ok _ _ _ _ _ _ _ expand_path_nonempty (Hinst _ _ Hi) Hexec) as Hok'.
    pose proof (exec_lock_effect _ _ _ _ _ _ _ Hexec) as Heff.
    pose proof (lookup_lt_Some _ _ _ Hi) as Hlen.
    unfold process_ok; split; [|split; [|split]]; cbn.
    + intros j mj [(<- & <- & _)|(_ & Hj)]%list_lookup_insert_Some; eauto.
    + intros j mj k [(<- & <- & _)|(Hne & Hj)]%list_lookup_insert_Some Hk.
      * destruct Heff as [E ->|k0 _ _ E ->|k0 _ _ E ->]; [| |congruence].
        -- rewrite E in Hk. eauto.
        -- rewrite E in Hk. assert (k = k0) as -> by congruence.
           set_solver.
      * destruct Heff as [E ->|k0 _ _ E ->|k0 E0 _ E ->]; [eauto| |].
        -- pose proof (Hin _ _ _ Hj Hk). set_solver.
        -- pose proof (Hin _ _ _ Hj Hk).
           assert (k <> k0) by (intros ->; apply Hne; eauto).
           set_solver.
    + intros j1 j2 m1 m2 k
        [(<- & <- & _)|(Hne1 & H1)]%list_lookup_insert_Some
        [(<- & <- & _)|(Hne2 & H2)]%list_lookup_insert_Some Hk1 Hk2;
        try congruence; [| |eauto].
      * exfalso. destruct Heff as [E ->|k0 _ Hfree E ->|k0 _ _ E ->];
          [| |congruence].
        -- rewrite E in Hk1. apply Hne2. eauto.
        -- rewrite E in Hk1. assert (k = k0) as -> by congruence.
           apply Hfree. eauto.
      * exfalso. destruct Heff as [E ->|k0 _ Hfree E ->|k0 _ _ E ->];
          [| |congruence].
        -- rewrite E in Hk2. apply Hne1. eauto.
        -- rewrite E in Hk2. assert (k = k0) as -> by congruence.
           apply Hfree. eauto.
    + intros k Kheld.
      destruct Heff as [E ->|k0 Enone _ E ->|k0 E0 _ E ->].
      * destruct (Hheld k Kheld) as (j & mj & Hj & Hlk).
        destruct (decide (i = j)) as [<-|Hne].
        -- exists i, m'. rewrite list_lookup_insert_eq by exact Hlen.
           split; [reflexivity|]. congruence.
        -- exists j, mj. rewrite list_lookup_insert_ne by exact Hne. eauto.
      * destruct (decide (k = k0)) as [->|Kne].
        -- exists i, m'. rewrite list_lookup_insert_eq by exact Hlen. eauto.
        -- assert (k ∈ _global_download_lock p) as Kin.
           { apply elem_of_union in Kheld as [Hs%elem_of_singleton|Hh];
               [congruence | exact Hh]. }
           destruct (Hheld k Kin) as (j & mj & Hj & Hlk).
           destruct (decide (i = j)) as [<-|Hne]; [congruence|].
           exists j, mj. rewrite list_lookup_insert_ne by exact Hne. eauto.
      * assert (k ∈ _global_download_lock p /\ k <> k0) as [Kin Kne]
          by set_solver.
        destruct (Hheld k Kin) as (j & mj & Hj & Hlk).
        destruct (decide (i = j)) as [<-|Hne]; [congruence|].
        exists j, mj. rewrite list_lookup_insert_ne by exact Hne. eauto.
Qed.

Lemma reachable_ok p :
  reachable expand_path languages_from_locale p -> process_ok p.
Proof.
  induction 1 as [|p q _ IH Hstep].
  - unfold process_ok; split; [|split; [|split]]; cbn.
    + intros i m Hi. rewrite lookup_nil in Hi. discriminate.
    + intros i m k Hi. rewrite lookup_nil in Hi. discriminate.
    + intros i j m1 m2 k Hi. rewrite lookup_nil in Hi. discriminate.
    + intros k Hk. set_solver.
  - exact (step_ok _ _ IH Hstep).
Qed.

(** In a reachable process [set.remove] never misses: the release
    never raises. *)
Lemma reachable_unlock_returns p i m :
  reachable expand_path languages_from_locale p ->
  instances p !! i = Some m ->
  exists h, _download_unlock (m, _global_download_lock p) = Ok (tt, h).
Proof.
  intros Hreach Hi. apply reachable_ok in Hreach.
  destruct Hreach as (_ & Hin & _ & _).
  repeat autounfold with methods; cbn.
  destruct (_active_download_lock m) as [k|] eqn:Hk; cbn; [|eauto].
  destruct (String.eqb k ""); cbn; [eauto|].
  destruct (decide (k ∈ _global_download_lock p)) as [|Hn]; cbn; [eauto|].
  destruct (Hn (Hin _ _ _ Hi Hk)).
Qed.

End Invariant.

(** ** The lock contract *)

(** Adding a new name to the shared set and removing it again gives the
    set back. *)
Lemma add_remove_fresh (k : string) (held : gset string) :
  k ∉ held -> ({[k]} ∪ held) ∖ {[k]} = held.
Proof.
  intros Hk. apply set_eq. intros x.
  rewrite elem_of_difference, elem_of_union, elem_of_singleton.
  split.
  - intros [[->|Hx] Hne]; [destruct Hne; reflexivity | exact Hx].
  - intros Hx. split; [right; exact Hx | intros ->; contradiction].
Qed.

Section LockContract.

Variable expand_path : string -> string.

(** From an accepted state, with the claim registered, [on_finished]
    returns: it releases a claim on a non-empty name and assigns the
    state [finished_state] gives. *)
Lemma on_finished_run success m held :
  active m -> synced m -> claim_registered m held ->
  exists m' held',
    on_finished expand_path success (m, held) = Ok (tt, (m', held')) /\
    state m' = finished_state (state m) success /\
    match _active_download_lock m with
    | Some k =>
        if String.eqb k ""
        then held' = held /\ _active_download_lock m' = Some k
        else held' = held ∖ {[k]} /\ _active_download_lock m' = None
    | None => held' = held /\ _active_download_lock m' = None
    end.
Proof.
  intros Hact Hsync Hreg. unfold synced in Hsync.
  destruct (_active_download_lock m) as [k|] eqn:Hk.
  - pose proof (Hreg k Hk) as Hin.
    destruct (String.eqb_spec k "") as [->|Hne];
      (destruct Hact as [Hst|Hst]; [destruct success|]);
      do 2 eexists; (split; [mgo; reflexivity|]);
      rewrite Hst; (split; [reflexivity|]); split;
      solve [reflexivity | mproj; assumption].
  - (destruct Hact as [Hst|Hst]; [destruct success|]);
      do 2 eexists; (split; [mgo; reflexivity|]);
      rewrite Hst; (split; [reflexivity|]); split;
      solve [reflexivity | mproj; assumption].
Qed.

(** X1.  Two instances and one name: the first call claims it, the
    second is denied and changes nothing; once the holder has released a
    non-empty name, any instance can claim it. *)
Lemma download_lock_exclusive k a b held :
  active a -> _active_download_lock a = None ->
  active b -> _active_download_lock b = None ->
  k ∉ held ->
  let a1 := set_active_download_lock (Some k) a in
  on_download_lock k (a, held) = Ok (true, (a1, {[k]} ∪ held)) /\
  on_download_lock k (b, {[k]} ∪ held) = Ok (false, (b, {[k]} ∪ held)) /\
  (k <> "" ->
   _download_unlock (a1, {[k]} ∪ held) =
     Ok (tt, (set_active_download_lock None a1, held)) /\
   on_download_lock k (b, held) =
     Ok (true, (set_active_download_lock (Some k) b, {[k]} ∪ held))).
Proof.
  intros Ha Hla Hb Hlb Hk a1.
  assert (k ∈ {[k]} ∪ held) as Hin
    by (apply elem_of_union_l, elem_of_singleton; reflexivity).
  split; [|split; [|intros Hne; split]].
  - rewrite on_download_lock_run by assumption.
    destruct (decide (k ∈ held)); [contradiction|reflexivity].
  - rewrite on_download_lock_run by assumption.
    destruct (decide (k ∈ {[k]} ∪ held)); [reflexivity|contradiction].
  - rewrite _download_unlock_run. cbn.
    rewrite (proj2 (String.eqb_neq k "") Hne).
    destruct (decide (k ∈ {[k]} ∪ held)); [|contradiction].
    rewrite (add_remove_fresh k held Hk). reflexivity.
  - rewrite on_download_lock_run by assumption.
    destruct (decide (k ∈ held)); [contradiction|reflexivity].
Qed.

End LockContract.

(** ** The release of the lock on the terminal paths *)

(** C1 (as amended).  When the instance holds a non-empty name [k] that
    is in the shared set, [on_finished], on success, on error and on
    cancellation alike, returns with [k] removed from the shared set and the
    claim cleared; from then on a release by this instance changes
    nothing, whatever the shared set holds, so [k] is removed once.
    [shutdown] only forwards to the engine: the claim and the shared set
    are as before, and it does not release [k]. *)
Theorem on_finished_releases_key expand_path success m held k :
  active m -> synced m ->
  _active_download_lock m = Some k -> k <> "" -> k ∈ held ->
  (exists m',
     on_finished expand_path success (m, held)
       = Ok (tt, (m', held ∖ {[k]})) /\
     _active_download_lock m' = None /\
     forall held2, _download_unlock (m', held2) = Ok (tt, (m', held2))) /\
  releases (on_finished expand_path success) m held k /\
  shutdown (m, held)
    = Ok (tt, (set_downloader (_downloader m ++ [Downloader_shutdown]) m,
               held)) /\
  ~ releases shutdown m held k.
Proof.
  intros Hact Hsync Hk Hne Hin. unfold synced in Hsync.
  assert (exists m',
     on_finished expand_path success (m, held)
       = Ok (tt, (m', held ∖ {[k]})) /\
     _active_download_lock m' = None /\
     forall held2, _download_unlock (m', held2) = Ok (tt, (m', held2)))
    as (m' & Hrun & Hnone & Honce).
  { destruct Hact as [Hst|Hst]; [destruct success|].
    all: eexists; split; [mgo; reflexivity|].
    all: split; [reflexivity|].
    all: intros held2; rewrite _download_unlock_run; reflexivity. }
  split; [exists m'; auto|]. split; [|split].
  - exists m', (held ∖ {[k]}). split; [exact Hrun|]. split; [|exact Hnone].
    rewrite elem_of_difference, elem_of_singleton. tauto.
  - reflexivity.
  - intros (m2 & held2 & Hrun2 & Hout & _).
    unfold shutdown in Hrun2. repeat autounfold with methods in Hrun2.
    cbn in Hrun2. injection Hrun2 as _ <-. contradiction.
Qed.

(** The instance of C1 at a download that holds the name ["k"] and
    ends in success. *)
Lemma on_finished_releases_key_witness :
  (exists m',
     on_finished home_expand_path true (fst (holding "k"), snd (holding "k"))
       = Ok (tt, (m', snd (holding "k") ∖ {["k"]})) /\
     _active_download_lock m' = None /\
     forall held2, _download_unlock (m', held2) = Ok (tt, (m', held2))) /\
  releases (on_finished home_expand_path true)
    (fst (holding "k")) (snd (holding "k")) "k" /\
  shutdown (fst (holding "k"), snd (holding "k"))
    = Ok (tt, (set_downloader
                 (_downloader (fst (holding "k")) ++ [Downloader_shutdown])
                 (fst (holding "k")),
               snd (holding "k"))) /\
  ~ releases shutdown (fst (holding "k")) (snd (holding "k")) "k".
Proof.
  apply (on_finished_releases_key home_expand_path true
           (fst (holding "k")) (snd (holding "k")) "k").
  - left. vm_compute. reflexivity.
  - vm_compute. reflexivity.
  - vm_compute. reflexivity.
  - discriminate.
  - vm_compute. reflexivity.
Defined.

(** C1 (as stated) fails: [shutdown] does not release the name the
    instance holds. *)
Lemma shutdown_does_not_release :
  _active_download_lock (fst (holding "k")) = Some "k" /\
  ~ releases shutdown (fst (holding "k")) (snd (holding "k")) "k".
Proof.
  split; [vm_compute; reflexivity|].
  intros (m' & held' & Hrun & Hout & _).
  vm_compute in Hrun. injection Hrun as _ <-.
  apply Hout. vm_compute. reflexivity.
Qed.

(** ** The empty name *)

(** C2 (the code at the empty name).  Instance A claims [""] and the
    call returns [True]; A's release then changes nothing, because the
    test in [_download_unlock] takes the empty string for no claim; [""]
    stays in the shared set, and the later call of instance B is denied. *)
Theorem empty_key_stays_locked :
  on_download_lock "" downloading = Ok (true, holding "") /\
  _download_unlock (holding "") = Ok (tt, holding "") /\
  "" ∈ snd (holding "") /\
  on_download_lock "" (fst downloading, snd (holding ""))
    = Ok (false, (fst downloading, snd (holding ""))).
Proof.
  split; [vm_compute; reflexivity|].
  split; [vm_compute; reflexivity|].
  split; vm_compute; reflexivity.
Qed.

(** C3 (the code at the empty name).  [on_finished] on an instance that
    holds [""] moves to ['success'] and leaves the claim and the shared
    set as they were: the lock is not released. *)
Theorem on_finished_keeps_empty_key :
  exists m',
    on_finished home_expand_path true (holding "")
      = Ok (tt, (m', snd (holding ""))) /\
    state m' = "success" /\
    _active_download_lock (fst (holding "")) = Some "" /\
    _active_download_lock m' = Some "" /\
    "" ∈ snd (holding "").
Proof.
  eexists. split; [vm_compute; reflexivity|].
  repeat split; vm_compute; reflexivity.
Qed.

(** C10 (the code at the empty name).  [on_download_finished] on an
    instance that holds [""] appends the file name and keeps the claim;
    the next [on_download_lock] of the same download fails its
    assertion. *)
Theorem on_download_finished_keeps_empty_key :
  exists m',
    on_download_finished "f" (holding "")
      = Ok (tt, (m', snd (holding ""))) /\
    finished_download_filenames m' = Some ["f"] /\
    _active_download_lock m' = Some "" /\
    "" ∈ snd (holding "") /\
    on_download_lock "g" (m', snd (holding "")) = Raise AssertionError.
Proof.
  eexists. split; [vm_compute; reflexivity|].
  repeat split; vm_compute; reflexivity.
Qed.

(** X3.  For a non-empty name [on_download_finished] does release: the
    name leaves the shared set, the claim is cleared, the file name is
    appended, and the next [on_download_lock] is accepted. *)
Lemma on_download_finished_releases filename name m held k :
  active m -> _active_download_lock m = Some k -> k <> "" -> k ∈ held ->
  exists m',
    on_download_finished filename (m, held)
      = Ok (tt, (m', held ∖ {[k]})) /\
    _active_download_lock m' = None /\
    finished_download_filenames m'
      = Some (or_nil (finished_download_filenames m) ++ [filename])%list /\
    exists b h, on_download_lock name (m', held ∖ {[k]}) = Ok (b, h).
Proof.
  intros Hact Hk Hne Hin.
  destruct Hact as [Hst|Hst].
  all: eexists; split; [mgo; reflexivity|].
  all: split; [reflexivity|]; split; [reflexivity|].
  all: rewrite on_download_lock_run; [|unfold active; mproj; tauto|reflexivity].
  all: destruct (decide (name ∈ held ∖ {[k]})); eauto.
Qed.

(** ** The guard on the transitions *)

(** X4.  Between two transitions, an assignment to [state] whose
    (current, new) pair is a row of the table, or ['start'] in ['start'],
    is accepted: it returns with the instance in the new state and
    [_prev_state] recording it. *)
Lemma accepted_transition expand_path m held st :
  synced m ->
  in_table (state m) st = true \/ (state m = "start" /\ st = "start") ->
  exists m',
    set_property_state expand_path st (m, held) = Ok (tt, (m', held)) /\
    state m' = st /\ synced m'.
Proof.
  intros Hsync Hpair. unfold synced in *.
  assert (state m = "start" /\ st = "download" \/
          state m = "download" /\ st = "cancel" \/
          state m = "download" /\ st = "success" \/
          state m = "download" /\ st = "error" \/
          state m = "cancel" /\ st = "start" \/
          state m = "success" /\ st = "start" \/
          state m = "error" /\ st = "start" \/
          state m = "start" /\ st = "start") as Hrows.
  { destruct Hpair as [Hrow|Hself]; [|tauto].
    unfold in_table in Hrow. cbn in Hrow.
    repeat (apply orb_prop in Hrow as [Hrow|Hrow];
            [apply andb_prop in Hrow as [?%String.eqb_eq ?%String.eqb_eq];
             intuition congruence|]).
    discriminate. }
  destruct Hrows as [[Hs ->]|[[Hs ->]|[[Hs ->]|[[Hs ->]|[[Hs ->]|[[Hs ->]|
    [[Hs ->]|[Hs ->]]]]]]]].
  all: eexists; split; [mgo; reflexivity|]; split; reflexivity.
Qed.

(** C4 (as amended).  Between two transitions, an assignment to [state]
    whose (current, new) pair is not a row of the table fails an
    assertion, except the assignment of ['start'] in ['start']; in
    particular, in ['download'] both the assignment of ['download'] and the
    assignment of ['start'] fail. *)
Theorem illegal_transition_refused expand_path m held :
  synced m ->
  str_in (state m) states = true ->
  (forall st,
     in_table (state m) st = false ->
     ~ (state m = "start" /\ st = "start") ->
     refused expand_path st m held) /\
  (state m = "download" ->
     refused expand_path "download" m held /\
     refused expand_path "start" m held).
Proof.
  intros Hsync Hst. unfold synced in Hsync. unfold refused. split.
  - intros st Htab Hself. apply str_in_states in Hst.
    unfold set_property_state. repeat autounfold with methods. cbn.
    rewrite _state_transition_run. cbn. rewrite Hsync. cbn.
    unfold in_table in Htab.
    destruct Hst as [Hs|[Hs|[Hs|[Hs|Hs]]]]; rewrite Hs in *; cbn.
    all: destruct (String.eqb_spec st "start") as [->|];
      [cbn in Htab; first [reflexivity | discriminate Htab
             | exfalso; apply Hself; split; reflexivity]|].
    all: destruct (String.eqb_spec st "download") as [->|];
      [cbn in Htab; first [reflexivity | discriminate Htab]|].
    all: destruct (String.eqb_spec st "cancel") as [->|];
      [cbn in Htab; first [reflexivity | discriminate Htab]|].
    all: destruct (String.eqb_spec st "success") as [->|];
      [cbn in Htab; first [reflexivity | discriminate Htab]|].
    all: destruct (String.eqb_spec st "error") as [->|];
      [cbn in Htab; first [reflexivity | discriminate Htab]|].
    all: reflexivity.
  - intros Hs. split; mgo; reflexivity.
Qed.

(** The instance of C4 at a download in progress. *)
Lemma illegal_transition_refused_witness :
  (forall st,
     in_table (state (fst downloading)) st = false ->
     ~ (state (fst downloading) = "start" /\ st = "start") ->
     refused home_expand_path st (fst downloading) ∅) /\
  (state (fst downloading) = "download" ->
     refused home_expand_path "download" (fst downloading) ∅ /\
     refused home_expand_path "start" (fst downloading) ∅).
Proof.
  apply (illegal_transition_refused home_expand_path (fst downloading) ∅).
  - vm_compute. reflexivity.
  - vm_compute. reflexivity.
Defined.

(** C4 (as stated) fails: ['start'] to ['start'] is not a row of the
    table, and the [back] action on a new instance is accepted. *)
Lemma start_to_start_accepted :
  in_table (state fresh) "start" = false /\
  ~ refused home_expand_path "start" fresh ∅ /\
  exists m', action_back home_expand_path (fresh, ∅) = Ok (tt, (m', ∅)).
Proof.
  split; [vm_compute; reflexivity|]. split.
  - unfold refused. vm_compute. discriminate.
  - eexists. vm_compute. reflexivity.
Qed.

(** ** The reset on entering ['start'] *)

(** C5.  A new instance is at the reset values; and whenever a call
    returns with the instance in ['start'], having left another state or
    being itself the assignment of ['start'], every field the ['start']
    branch assigns reads as its reset value: the error message, the
    playlist index and count, the file name, title and thumbnail, the
    progress, bytes, total, speed and eta, the finished file names and the
    finished download directory. *)
Theorem entering_start_resets expand_path languages_from_locale
    (handler : Handler) :
  (forall m, __init__ expand_path = Ok m -> at_reset m) /\
  (forall c m held m' held',
     exec expand_path languages_from_locale c (m, held)
       = Ok (tt, (m', held')) ->
     c = Set_state "start" \/ state m <> "start" ->
     state m' = "start" ->
     at_reset m').
Proof.
  split.
  - intros m. rewrite __init___run. intros [= <-].
    apply at_reset_set_prev_state, reset_telemetry_at_reset.
  - intros c m held m' held' H Henter Hstart.
    destruct c; repeat autounfold with methods in H; cbn in H;
      msplit H; injection H as <- <-;
      try (apply at_reset_set_prev_state, reset_telemetry_at_reset);
      exfalso; destruct Henter as [Hc|Hne]; try discriminate Hc;
      try (apply Hne; exact Hstart);
      try (revert Hstart; mproj; congruence).
Qed.

(** The instance of C5 at the [back] action after a finished download. *)
Lemma entering_start_resets_witness :
  at_reset fresh /\
  at_reset
    (fst (after [Set_state "download";
                 On_download_start 0 1 "T";
                 On_progress "f" 0.5%float 500 1000 10 50;
                 On_download_finished "f";
                 On_finished true;
                 Set_state "start"] (fresh, ∅))).
Proof.
  destruct (entering_start_resets home_expand_path locale_languages
              silent_handler) as [Hinit Hcall].
  split.
  - apply Hinit. vm_compute. reflexivity.
  - apply (Hcall (Set_state "start")
             (fst (after [Set_state "download";
                          On_download_start 0 1 "T";
                          On_progress "f" 0.5%float 500 1000 10 50;
                          On_download_finished "f";
                          On_finished true] (fresh, ∅)))
             ∅ _ ∅).
    + vm_compute. reflexivity.
    + left. reflexivity.
    + vm_compute. reflexivity.
Defined.

(** ** The guard of [on_download_lock] *)

(** C6 (as amended).  [on_download_lock] fails an assertion outside
    ['download'] and ['cancel'], and fails an assertion whenever the
    instance already has a claim, so directly after a call that returned
    [True]; with no claim it is accepted and returns, so it can be repeated
    after a denied call. *)
Theorem on_download_lock_guard name m held :
  (~ active m -> on_download_lock name (m, held) = Raise AssertionError) /\
  (_active_download_lock m <> None ->
     on_download_lock name (m, held) = Raise AssertionError) /\
  (active m -> _active_download_lock m = None ->
     (name ∈ held ->
        on_download_lock name (m, held) = Ok (false, (m, held)) /\
        forall name2, exists r,
          on_download_lock name2 (m, held) = Ok r) /\
     (name ∉ held ->
        exists m',
          on_download_lock name (m, held)
            = Ok (true, (m', {[name]} ∪ held)) /\
          forall name2 held2,
            on_download_lock name2 (m', held2) = Raise AssertionError)).
Proof.
  split; [|split].
  - intros Hact. rewrite <- str_in_active in Hact.
    apply not_true_is_false in Hact.
    repeat autounfold with methods. cbn. cbn in Hact. rewrite Hact.
    reflexivity.
  - intros Hlock. repeat autounfold with methods. cbn.
    destruct (String.eqb (state m) "download" ||
              (String.eqb (state m) "cancel" || false)); [|reflexivity].
    cbn. destruct (_active_download_lock m); [reflexivity|congruence].
  - intros Hact Hnone. split.
    + intros Hin. split.
      * rewrite on_download_lock_run by assumption.
        destruct (decide (name ∈ held)); [reflexivity|contradiction].
      * intros name2. rewrite on_download_lock_run by assumption.
        destruct (decide (name2 ∈ held)); eauto.
    + intros Hout. eexists. split.
      * rewrite on_download_lock_run by assumption.
        destruct (decide (name ∈ held)); [contradiction|reflexivity].
      * intros name2 held2. destruct Hact as [Hst|Hst]; mgo; reflexivity.
Qed.

(** The instance of C6 at a download in progress, with the name ["k"]
    free and with ["k"] taken by another instance. *)
Lemma on_download_lock_guard_witness :
  on_download_lock "k" (fresh, ∅) = Raise AssertionError /\
  on_download_lock "g" (fst (holding "k"), snd (holding "k"))
    = Raise AssertionError /\
  on_download_lock "k" (fst downloading, snd (holding "k"))
    = Ok (false, (fst downloading, snd (holding "k"))) /\
  exists m',
    on_download_lock "k" (fst downloading, ∅)
      = Ok (true, (m', {["k"]} ∪ ∅)).
Proof.
  split; [|split; [|split]].
  - apply (proj1 (on_download_lock_guard "k" fresh ∅)).
    intros H. apply str_in_active in H. vm_compute in H. discriminate H.
  - apply (proj1 (proj2 (on_download_lock_guard "g" (fst (holding "k"))
                           (snd (holding "k"))))).
    intros H. vm_compute in H. discriminate H.
  - destruct (on_download_lock_guard "k" (fst downloading)
                (snd (holding "k"))) as (_ & _ & Hnone).
    destruct Hnone as (Htaken & _);
      [left; vm_compute; reflexivity | vm_compute; reflexivity |].
    apply Htaken. vm_compute. reflexivity.
  - destruct (on_download_lock_guard "k" (fst downloading) ∅)
      as (_ & _ & Hfree).
    destruct Hfree as (_ & Hfree);
      [left; vm_compute; reflexivity | vm_compute; reflexivity |].
    destruct Hfree as (m' & Hrun & _); [apply not_elem_of_empty|].
    exists m'. exact Hrun.
Defined.

(** C6 (as stated) fails: after a denied call the same instance calls
    again in the same download, and the call is accepted. *)
Lemma lock_retry_after_denial :
  on_download_lock "k" (fst downloading, snd (holding "k"))
    = Ok (false, (fst downloading, snd (holding "k"))) /\
  on_download_lock "k" (fst downloading, snd (holding "k"))
    <> Raise AssertionError /\
  on_download_lock "k2" (fst downloading, snd (holding "k"))
    = Ok (true, (fst (holding "k2"), {["k2"]} ∪ snd (holding "k"))).
Proof.
  split; [vm_compute; reflexivity|].
  split; [vm_compute; discriminate|].
  vm_compute. reflexivity.
Qed.

(** ** Releasing twice *)

(** What a call of [on_download_lock] that returned [True] did. *)
Lemma on_download_lock_true name m held m' held' :
  on_download_lock name (m, held) = Ok (true, (m', held')) ->
  m' = set_active_download_lock (Some name) m /\
  held' = {[name]} ∪ held /\ name ∉ held.
Proof.
  intros H. repeat autounfold with methods in H. cbn in H.
  msplit H; injection H as <- <-; auto.
Qed.

(** C7.  Instance A holds the name [k] and releases; instance B then
    claims the same name; a second release by A changes nothing: [k] is
    still in the shared set and still B's claim. *)
Theorem second_unlock_spares_other a b held k a1 held1 b1 held2 :
  _active_download_lock a = Some k ->
  _download_unlock (a, held) = Ok (tt, (a1, held1)) ->
  on_download_lock k (b, held1) = Ok (true, (b1, held2)) ->
  _download_unlock (a1, held2) = Ok (tt, (a1, held2)) /\
  k ∈ held2 /\
  _active_download_lock b1 = Some k.
Proof.
  intros Hk Hfirst Hclaim.
  apply on_download_lock_true in Hclaim as (-> & -> & Hfree).
  rewrite _download_unlock_run, Hk in Hfirst.
  split; [|split; [|reflexivity]].
  - destruct (String.eqb_spec k "") as [->|Hne].
    + injection Hfirst as <- <-.
      rewrite _download_unlock_run, Hk. reflexivity.
    + destruct (decide (k ∈ held)); [|discriminate Hfirst].
      injection Hfirst as <- <-.
      rewrite _download_unlock_run. reflexivity.
  - apply elem_of_union_l, elem_of_singleton. reflexivity.
Qed.

(** The instance of C7 at the name ["k"]. *)
Lemma second_unlock_spares_other_witness :
  _download_unlock
    (set_active_download_lock None (fst (holding "k")), snd (holding "k"))
    = Ok (tt, (set_active_download_lock None (fst (holding "k")),
               snd (holding "k"))) /\
  "k" ∈ snd (holding "k") /\
  _active_download_lock (fst (holding "k")) = Some "k".
Proof.
  apply (second_unlock_spares_other (fst (holding "k")) (fst downloading)
           (snd (holding "k")) "k"
           (set_active_download_lock None (fst (holding "k"))) ∅
           (fst (holding "k")) (snd (holding "k"))).
  - vm_compute. reflexivity.
  - vm_compute. reflexivity.
  - vm_compute. reflexivity.
Defined.

(** ** The finished download directory *)

(** C8.  In every reachable process, provided [expand_path] never yields
    the empty path, the finished download directory of an instance is
    non-empty exactly in ['download'], ['cancel'], ['success'] and
    ['error'], and empty exactly in ['start']. *)
Theorem finished_download_dir_iff_state expand_path languages_from_locale
    (handler : Handler) p i m :
  (forall path, expand_path path <> "") ->
  reachable expand_path languages_from_locale p ->
  instances p !! i = Some m ->
  (finished_download_dir m <> "" <->
   str_in (state m) ["download"; "cancel"; "success"; "error"] = true) /\
  (finished_download_dir m = "" <-> state m = "start").
Proof.
  intros Hep Hreach Hi.
  apply (reachable_ok _ _ Hep) in Hreach as (Hinst & _).
  destruct (Hinst _ _ Hi) as (_ & Hst & Hdir).
  split; [|exact Hdir].
  apply str_in_states in Hst.
  destruct Hst as [Hs|[Hs|[Hs|[Hs|Hs]]]]; rewrite Hs in *; cbn;
    split; intros H; try reflexivity; try discriminate H;
    try (destruct H; apply Hdir; reflexivity);
    intros Hempty; apply Hdir in Hempty; discriminate Hempty.
Qed.

(** The instance of C8 at a process of one instance that has started a
    download. *)
Lemma finished_download_dir_iff_state_witness :
  (finished_download_dir (fst downloading) <> "" <->
   str_in (state (fst downloading))
     ["download"; "cancel"; "success"; "error"] = true) /\
  (finished_download_dir (fst downloading) = "" <->
   state (fst downloading) = "start").
Proof.
  apply (finished_download_dir_iff_state home_expand_path locale_languages
           silent_handler
           (mkProcess (<[0%nat:=fst downloading]> ([] ++ [fresh])%list) ∅)
           0%nat (fst downloading)).
  - intros path H. unfold home_expand_path in H. cbn in H. discriminate H.
  - apply (reachable_step _ _ (mkProcess ([] ++ [fresh])%list ∅)).
    + apply (reachable_step _ _ (mkProcess [] ∅)).
      * apply reachable_start.
      * apply (step_new _ _ (mkProcess [] ∅) fresh).
        vm_compute. reflexivity.
    + apply (step_call _ _ (mkProcess ([] ++ [fresh])%list ∅) 0%nat
               (Set_state "download") fresh (fst downloading) ∅).
      * reflexivity.
      * vm_compute. reflexivity.
  - vm_compute. reflexivity.
Defined.

(** ** Reporting an error *)

(** C9.  In ['download'] or ['cancel'], [on_error] stores the message
    and leaves the state as it is; [on_finished] with [False] then moves
    from ['download'] to ['error'] with the message still in place (and
    from ['cancel'] to ['start'], where the message is reset); and among the
    engine's callbacks only [on_finished] with [False] moves an instance
    into ['error']. *)
Theorem on_error_keeps_state expand_path languages_from_locale
    (handler : Handler) msg m held :
  active m -> synced m -> claim_registered m held ->
  on_error msg (m, held) = Ok (tt, (set_error msg m, held)) /\
  error (set_error msg m) = msg /\
  state (set_error msg m) = state m /\
  (exists m' held',
     on_finished expand_path false (set_error msg m, held)
       = Ok (tt, (m', held')) /\
     state m' = (if String.eqb (state m) "cancel" then "start" else "error") /\
     error m' = (if String.eqb (state m) "cancel" then "" else msg)) /\
  (forall c m1 held1 m' held',
     is_callback c = true ->
     exec expand_path languages_from_locale c (m1, held1)
       = Ok (tt, (m', held')) ->
     state m1 <> "error" -> state m' = "error" ->
     c = On_finished false).
Proof.
  intros Hact Hsync Hreg. unfold synced in Hsync.
  split; [|split; [|split; [|split]]].
  - destruct Hact as [Hst|Hst]; mgo; reflexivity.
  - reflexivity.
  - reflexivity.
  - destruct (_active_download_lock m) as [k|] eqn:Hk.
    + pose proof (Hreg k Hk) as Hin.
      destruct (String.eqb_spec k "") as [->|Hne];
        destruct Hact as [Hst|Hst];
        do 2 eexists; (split; [mgo; reflexivity|]);
        rewrite Hst; split; reflexivity.
    + destruct Hact as [Hst|Hst];
        do 2 eexists; (split; [mgo; reflexivity|]);
        rewrite Hst; split; reflexivity.
  - intros c m1 held1 m' held' Hcb H Hbefore Hafter.
    destruct c; try discriminate Hcb;
      repeat autounfold with methods in H; cbn in H;
      msplit H; injection H as <- <-;
      try reflexivity; exfalso;
      try (apply Hbefore; exact Hafter);
      revert Hafter; mproj; congruence.
Qed.

(** The instance of C9 at a download in progress. *)
Lemma on_error_keeps_state_witness :
  on_error "boom" (fst downloading, ∅)
    = Ok (tt, (set_error "boom" (fst downloading), ∅)) /\
  error (set_error "boom" (fst downloading)) = "boom" /\
  state (set_error "boom" (fst downloading)) = state (fst downloading) /\
  (exists m' held',
     on_finished home_expand_path false
       (set_error "boom" (fst downloading), ∅)
       = Ok (tt, (m', held')) /\
     state m' = (if String.eqb (state (fst downloading)) "cancel"
                 then "start" else "error") /\
     error m' = (if String.eqb (state (fst downloading)) "cancel"
                 then "" else "boom")) /\
  (forall c m1 held1 m' held',
     is_callback c = true ->
     exec home_expand_path locale_languages c (m1, held1)
       = Ok (tt, (m', held')) ->
     state m1 <> "error" -> state m' = "error" ->
     c = On_finished false).
Proof.
  apply (on_error_keeps_state home_expand_path locale_languages
           silent_handler "boom" (fst downloading) ∅).
  - left. vm_compute. reflexivity.
  - vm_compute. reflexivity.
  - intros k H. vm_compute in H. discriminate H.
Defined.

(** ** More of what every reachable process satisfies *)

Section MoreInvariants.

Variable expand_path : string -> string.
Variable languages_from_locale : list string.
Context {handler : Handler}.

(** A property of instances that construction establishes and every
    returning call keeps holds throughout a reachable process. *)
Lemma reachable_instances (P : Model -> Prop) :
  (forall m, __init__ expand_path = Ok m -> P m) ->
  (forall c m held m' held',
     P m ->
     exec expand_path languages_from_locale c (m, held)
       = Ok (tt, (m', held')) ->
     P m') ->
  forall p, reachable expand_path languages_from_locale p ->
  forall i m, instances p !! i = Some m -> P m.
Proof.
  intros Hinit Hkeep p Hreach.
  induction Hreach as [|p q _ IH Hstep]; cbn.
  - intros i m Hi. rewrite lookup_nil in Hi. discriminate Hi.
  - destruct Hstep as [m0 Hnew | j c m0 m' held' Hj Hexec]; cbn.
    + intros i m [[_ Hi]|[_ <-]]%lookup_snoc_Some; eauto.
    + intros i m [(<- & <- & _)|(_ & Hi)]%list_lookup_insert_Some; eauto.
Qed.

(** Every returning call keeps [state] and [_prev_state] together, on
    one of the five values. *)
Lemma exec_tracked c m held m' held' :
  tracked m ->
  exec expand_path languages_from_locale c (m, held)
    = Ok (tt, (m', held')) ->
  tracked m'.
Proof.
  intros (Hsync & Hst) H. unfold synced in Hsync.
  destruct c; repeat autounfold with methods in H; cbn in H;
    msplit H; injection H as <- <-; unfold tracked, synced; mproj;
    try (split; assumption).
  all: split; reflexivity.
Qed.

Lemma reachable_tracked p i m :
  reachable expand_path languages_from_locale p ->
  instances p !! i = Some m -> tracked m.
Proof.
  intros Hreach. revert i m.
  apply (reachable_instances tracked); [|exact exec_tracked|exact Hreach].
  intros m Hm. apply __init___ok in Hm as ((Hsync & Hst & _) & _).
  split; assumption.
Qed.

(** Every step keeps the claims and the shared set in agreement. *)
Lemma step_claims_ok p q :
  claims_ok p -> step expand_path languages_from_locale p q -> claims_ok q.
Proof.
  intros (Hin & Huniq & Hheld) Hstep.
  destruct Hstep as [m Hnew | i c m m' held' Hi Hexec].
  - apply __init___ok in Hnew as [_ Hnone].
    unfold claims_ok; split; [|split]; cbn.
    + intros j mj k [[_ Hj]|[_ <-]]%lookup_snoc_Some Hk; [eauto | congruence].
    + intros j1 j2 m1 m2 k [[_ H1]|[_ <-]]%lookup_snoc_Some
        [[_ H2]|[_ <-]]%lookup_snoc_Some Hk1 Hk2; try congruence; eauto.
    + intros k Hk. destruct (Hheld k Hk) as (j & mj & Hj & Hlk).
      exists j, mj. split; [|exact Hlk].
      rewrite lookup_app_l; [exact Hj | eapply lookup_lt_Some; exact Hj].
  - pose proof (exec_lock_effect _ _ _ _ _ _ _ Hexec) as Heff.
    pose proof (lookup_lt_Some _ _ _ Hi) as Hlen.
    unfold claims_ok; split; [|split]; cbn.
    + intros j mj k [(<- & <- & _)|(Hne & Hj)]%list_lookup_insert_Some Hk.
      * destruct Heff as [E ->|k0 _ _ E ->|k0 _ _ E ->]; [| |congruence].
        -- rewrite E in Hk. eauto.
        -- rewrite E in Hk. assert (k = k0) as -> by congruence.
           apply elem_of_union_l, elem_of_singleton. reflexivity.
      * destruct Heff as [E ->|k0 _ _ E ->|k0 E0 _ E ->]; [eauto| |].
        -- apply elem_of_union_r. eauto.
        -- apply elem_of_difference. split; [eauto|].
           rewrite elem_of_singleton. intros ->. apply Hne. eauto.
    + intros j1 j2 m1 m2 k
        [(<- & <- & _)|(Hne1 & H1)]%list_lookup_insert_Some
        [(<- & <- & _)|(Hne2 & H2)]%list_lookup_insert_Some Hk1 Hk2;
        try congruence; [| |eauto].
      * exfalso. destruct Heff as [E ->|k0 _ Hfree E ->|k0 _ _ E ->];
          [| |congruence].
        -- rewrite E in Hk1. apply Hne2. eauto.
        -- rewrite E in Hk1. assert (k = k0) as -> by congruence.
           apply Hfree. eauto.
      * exfalso. destruct Heff as [E ->|k0 _ Hfree E ->|k0 _ _ E ->];
          [| |congruence].
        -- rewrite E in Hk2. apply Hne1. eauto.
        -- rewrite E in Hk2. assert (k = k0) as -> by congruence.
           apply Hfree. eauto.
    + intros k Kheld.
      destruct Heff as [E ->|k0 Enone _ E ->|k0 E0 _ E ->].
      * destruct (Hheld k Kheld) as (j & mj & Hj & Hlk).
        destruct (decide (i = j)) as [<-|Hne].
        -- exists i, m'. rewrite list_lookup_insert_eq by exact Hlen.
           split; [reflexivity|]. congruence.
        -- exists j, mj. rewrite list_lookup_insert_ne by exact Hne. eauto.
      * destruct (decide (k = k0)) as [->|Kne].
        -- exists i, m'. rewrite list_lookup_insert_eq by exact Hlen. eauto.
        -- assert (k ∈ _global_download_lock p) as Kin.
           { apply elem_of_union in Kheld as [Hs%elem_of_singleton|Hh];
               [congruence | exact Hh]. }
           destruct (Hheld k Kin) as (j & mj & Hj & Hlk).
           destruct (decide (i = j)) as [<-|Hne]; [congruence|].
           exists j, mj. rewrite list_lookup_insert_ne by exact Hne. eauto.
      * apply elem_of_difference in Kheld as [Kin Kne].
        rewrite elem_of_singleton in Kne.
        destruct (Hheld k Kin) as (j & mj & Hj & Hlk).
        destruct (decide (i = j)) as [<-|Hne]; [congruence|].
        exists j, mj. rewrite list_lookup_insert_ne by exact Hne. eauto.
Qed.

Lemma reachable_claims_ok p :
  reachable expand_path languages_from_locale p -> claims_ok p.
Proof.
  induction 1 as [|p q _ IH Hstep].
  - unfold claims_ok; split; [|split]; cbn.
    + intros i m k Hi. rewrite lookup_nil in Hi. discriminate Hi.
    + intros i j m1 m2 k Hi. rewrite lookup_nil in Hi. discriminate Hi.
    + intros k Hk. apply not_elem_of_empty in Hk. destruct Hk.
  - exact (step_claims_ok _ _ IH Hstep).
Qed.

(** A run of events that does not stop is a sequence of steps. *)
Lemma run_events_reachable es p q :
  reachable expand_path languages_from_locale p ->
  run_events expand_path languages_from_locale es p = Some q ->
  reachable expand_path languages_from_locale q.
Proof.
  revert p. induction es as [|e es IH]; intros p Hp Hrun; cbn in Hrun.
  - injection Hrun as <-. exact Hp.
  - destruct (run_event expand_path languages_from_locale e p) as [p'|]
      eqn:He; [|discriminate Hrun].
    apply (IH p'); [|exact Hrun].
    apply (reachable_step _ _ p); [exact Hp|].
    destruct e as [|i c]; cbn in He.
    + destruct (__init__ expand_path) as [m|] eqn:Hm; [|discriminate He].
      injection He as <-. apply step_new. exact Hm.
    + destruct (instances p !! i) as [m|] eqn:Hi; [|discriminate He].
      destruct (exec expand_path languages_from_locale c
                  (m, _global_download_lock p)) as [[[] [m' held']]|]
        eqn:Hc; [|discriminate He].
      injection He as <-. cbn. eapply step_call; [exact Hi|exact Hc].
Qed.

End MoreInvariants.

(** The process of the examples is reachable. *)
Lemma two_downloads_reachable :
  reachable home_expand_path locale_languages (process_after two_downloads).
Proof.
  apply (run_events_reachable _ _ two_downloads (mkProcess [] ∅));
    [apply reachable_start|].
  vm_compute. reflexivity.
Qed.

(** ** Properties of the reachable processes *)

(** X5.  In every reachable process a claimed name is in the shared set,
    no two instances claim the same name, and every name in the shared set
    is the claim of some instance. *)
Theorem claims_exclusive expand_path languages_from_locale
    (handler : Handler) p :
  reachable expand_path languages_from_locale p ->
  (forall i m k, instances p !! i = Some m ->
     _active_download_lock m = Some k -> k ∈ _global_download_lock p) /\
  (forall i j m1 m2 k, instances p !! i = Some m1 ->
     instances p !! j = Some m2 ->
     _active_download_lock m1 = Some k ->
     _active_download_lock m2 = Some k -> i = j) /\
  (forall k, k ∈ _global_download_lock p ->
     exists i m, instances p !! i = Some m /\
       _active_download_lock m = Some k).
Proof.
  intros Hreach. exact (reachable_claims_ok _ _ _ Hreach).
Qed.

(** The instance of X5 at two downloads, one holding ["k"]. *)
Lemma claims_exclusive_witness :
  (forall i m k, instances (process_after two_downloads) !! i = Some m ->
     _active_download_lock m = Some k ->
     k ∈ _global_download_lock (process_after two_downloads)) /\
  (forall i j m1 m2 k,
     instances (process_after two_downloads) !! i = Some m1 ->
     instances (process_after two_downloads) !! j = Some m2 ->
     _active_download_lock m1 = Some k ->
     _active_download_lock m2 = Some k -> i = j) /\
  (forall k, k ∈ _global_download_lock (process_after two_downloads) ->
     exists i m, instances (process_after two_downloads) !! i = Some m /\
       _active_download_lock m = Some k).
Proof.
  apply (claims_exclusive home_expand_path locale_languages silent_handler
           (process_after two_downloads)).
  exact two_downloads_reachable.
Defined.

(** X6.  In every reachable process the [state] of an instance is one of
    the five values and [_prev_state] records it. *)
Theorem state_is_tracked expand_path languages_from_locale
    (handler : Handler) p i m :
  reachable expand_path languages_from_locale p ->
  instances p !! i = Some m ->
  _prev_state m = Some (state m) /\
  (state m = "start" \/ state m = "download" \/ state m = "cancel" \/
   state m = "success" \/ state m = "error").
Proof.
  intros Hreach Hi.
  destruct (reachable_tracked _ _ _ _ _ Hreach Hi) as (Hsync & Hst).
  split; [exact Hsync|]. apply str_in_states. exact Hst.
Qed.

(** The instance of X6 at the second of two downloads. *)
Lemma state_is_tracked_witness :
  _prev_state (fst downloading) = Some (state (fst downloading)) /\
  (state (fst downloading) = "start" \/
   state (fst downloading) = "download" \/
   state (fst downloading) = "cancel" \/
   state (fst downloading) = "success" \/
   state (fst downloading) = "error").
Proof.
  apply (state_is_tracked home_expand_path locale_languages silent_handler
           (process_after two_downloads) 1%nat (fst downloading)).
  - exact two_downloads_reachable.
  - vm_compute. reflexivity.
Defined.

(** X2.  In every reachable process [on_finished], called on an instance
    in ['download'] or ['cancel'], returns: it never raises.  The instance
    goes to ['start'] from ['cancel'], and from ['download'] to ['success']
    or ['error'] as the flag says; a claim on a non-empty name is released
    and the name leaves the shared set. *)
Theorem on_finished_returns expand_path languages_from_locale
    (handler : Handler) p i m success :
  reachable expand_path languages_from_locale p ->
  instances p !! i = Some m ->
  active m ->
  exists m' held',
    on_finished expand_path success (m, _global_download_lock p)
      = Ok (tt, (m', held')) /\
    state m' = finished_state (state m) success /\
    match _active_download_lock m with
    | Some k =>
        if String.eqb k ""
        then held' = _global_download_lock p /\
             _active_download_lock m' = Some k
        else held' = _global_download_lock p ∖ {[k]} /\
             _active_download_lock m' = None
    | None =>
        held' = _global_download_lock p /\ _active_download_lock m' = None
    end.
Proof.
  intros Hreach Hi Hact.
  destruct (reachable_tracked _ _ _ _ _ Hreach Hi) as (Hsync & _).
  destruct (reachable_claims_ok _ _ _ Hreach) as (Hin & _).
  apply on_finished_run; [exact Hact | exact Hsync |].
  intros k Hk. exact (Hin _ _ _ Hi Hk).
Qed.

(** The instance of X2 at the download that holds ["k"]. *)
Lemma on_finished_returns_witness :
  exists m' held',
    on_finished home_expand_path true
      (fst (holding "k"), _global_download_lock (process_after two_downloads))
      = Ok (tt, (m', held')) /\
    state m' = finished_state (state (fst (holding "k"))) true /\
    match _active_download_lock (fst (holding "k")) with
    | Some k =>
        if String.eqb k ""
        then held' = _global_download_lock (process_after two_downloads) /\
             _active_download_lock m' = Some k
        else held'
               = _global_download_lock (process_after two_downloads) ∖ {[k]} /\
             _active_download_lock m' = None
    | None =>
        held' = _global_download_lock (process_after two_downloads) /\
        _active_download_lock m' = None
    end.
Proof.
  apply (on_finished_returns home_expand_path locale_languages silent_handler
           (process_after two_downloads) 0%nat (fst (holding "k")) true).
  - exact two_downloads_reachable.
  - vm_compute. reflexivity.
  - left. vm_compute. reflexivity.
Defined.

(** X14.  In every reachable process, while one instance claims the
    name [k], [on_download_lock] with [k] on an instance that is downloading
    and claims nothing returns [False] and changes nothing. *)
Theorem held_name_denied expand_path languages_from_locale
    (handler : Handler) p i j a b k :
  reachable expand_path languages_from_locale p ->
  instances p !! i = Some a ->
  instances p !! j = Some b ->
  _active_download_lock a = Some k ->
  active b -> _active_download_lock b = None ->
  on_download_lock k (b, _global_download_lock p)
    = Ok (false, (b, _global_download_lock p)).
Proof.
  intros Hreach Hi Hj Hk Hact Hnone.
  destruct (reachable_claims_ok _ _ _ Hreach) as (Hin & _).
  rewrite on_download_lock_run by assumption.
  destruct (decide (k ∈ _global_download_lock p)) as [|Hout];
    [reflexivity|].
  destruct (Hout (Hin _ _ _ Hi Hk)).
Qed.

(** The instance of X14 at two downloads, one holding ["k"]. *)
Lemma held_name_denied_witness :
  on_download_lock "k"
    (fst downloading, _global_download_lock (process_after two_downloads))
    = Ok (false,
          (fst downloading,
           _global_download_lock (process_after two_downloads))).
Proof.
  apply (held_name_denied home_expand_path locale_languages silent_handler
           (process_after two_downloads) 0%nat 1%nat
           (fst (holding "k")) (fst downloading) "k").
  - exact two_downloads_reachable.
  - vm_compute. reflexivity.
  - vm_compute. reflexivity.
  - vm_compute. reflexivity.
  - left. vm_compute. reflexivity.
  - vm_compute. reflexivity.
Defined.

(** ** The request parameters *)

(** A call other than an assignment to a request parameter leaves the
    request parameters as they are. *)
Lemma exec_request expand_path languages_from_locale (handler : Handler)
    c m held m' held' :
  sets_request c = false ->
  exec expand_path languages_from_locale c (m, held)
    = Ok (tt, (m', held')) ->
  request m' = request m.
Proof.
  intros Hc H.
  destruct c; try discriminate Hc;
    repeat autounfold with methods in H; cbn in H;
    msplit H; injection H as <- <-; unfold request; mproj; reflexivity.
Qed.

(** X7.  Over any sequence of transitions, callbacks and [shutdown], that
    is, calls that do not assign a request parameter, the mode, url,
    resolution, download folder, subtitle languages and MPEG preference stay
    as they were; if the instance is then in ['download'] or ['cancel'], the
    accessors return those values and change nothing. *)
Theorem request_is_kept expand_path languages_from_locale
    (handler : Handler) cs h h' :
  forallb (fun c => negb (sets_request c)) cs = true ->
  exec_all expand_path languages_from_locale cs h = Ok h' ->
  request (fst h') = request (fst h) /\
  (active (fst h') ->
   get_url h' = Ok (url (fst h), h') /\
   get_mode h' = Ok (mode (fst h), h') /\
   get_resolution h' = Ok (resolution (fst h), h') /\
   get_prefer_mpeg h' = Ok (prefer_mpeg (fst h), h') /\
   get_automatic_subtitles languages_from_locale h'
     = Ok ((languages_from_locale
              ++ or_nil (automatic_subtitles (fst h)))%list, h')).
Proof.
  intros Hcs Hrun.
  assert (request (fst h') = request (fst h)) as Hreq.
  { revert h Hrun. induction cs as [|c cs IH]; intros h Hrun; cbn in Hrun.
    - injection Hrun as <-. reflexivity.
    - cbn in Hcs. apply andb_prop in Hcs as [Hc Hcs].
      apply negb_true_iff in Hc.
      destruct (exec expand_path languages_from_locale c h)
        as [[[] [m1 held1]]|] eqn:Hexec; [|discriminate Hrun].
      rewrite (IH Hcs _ Hrun). cbn. destruct h as [m held].
      exact (exec_request _ _ _ _ _ _ _ _ Hc Hexec). }
  split; [exact Hreq|].
  intros Hact. unfold request in Hreq.
  injection Hreq as Hmode Hurl Hres _ Hsubs Hmpeg.
  destruct h' as [m' held']. cbn in *.
  destruct Hact as [Hst|Hst]; repeat split; mgo; reflexivity.
Qed.

(** The instance of X7 at a download with progress and a finished
    file. *)
Lemma request_is_kept_witness :
  request (fst (after sample_callbacks requested)) = request (fst requested) /\
  (active (fst (after sample_callbacks requested)) ->
   get_url (after sample_callbacks requested)
     = Ok (url (fst requested), after sample_callbacks requested) /\
   get_mode (after sample_callbacks requested)
     = Ok (mode (fst requested), after sample_callbacks requested) /\
   get_resolution (after sample_callbacks requested)
     = Ok (resolution (fst requested), after sample_callbacks requested) /\
   get_prefer_mpeg (after sample_callbacks requested)
     = Ok (prefer_mpeg (fst requested), after sample_callbacks requested) /\
   get_automatic_subtitles locale_languages (after sample_callbacks requested)
     = Ok ((locale_languages
              ++ or_nil (automatic_subtitles (fst requested)))%list,
           after sample_callbacks requested)).
Proof.
  apply (request_is_kept home_expand_path locale_languages silent_handler
           sample_callbacks requested (after sample_callbacks requested)).
  - vm_compute. reflexivity.
  - vm_compute. reflexivity.
Defined.

(** ** The finished files *)

(** [on_download_finished] in an accepted state with the claim
    registered: it returns, appends the file name, keeps the state and
    leaves the claim registered. *)
Lemma on_download_finished_run filename m held :
  active m -> claim_registered m held ->
  exists m' held',
    on_download_finished filename (m, held) = Ok (tt, (m', held')) /\
    or_nil (finished_download_filenames m')
      = (or_nil (finished_download_filenames m) ++ [filename])%list /\
    state m' = state m /\
    claim_registered m' held'.
Proof.
  intros Hact Hreg.
  destruct (_active_download_lock m) as [k|] eqn:Hk.
  - pose proof (Hreg k Hk) as Hin.
    destruct (String.eqb_spec k "") as [->|Hne]; destruct Hact as [Hst|Hst];
      do 2 eexists; (split; [mgo; reflexivity|]);
      (split; [reflexivity|]); (split; [reflexivity|]);
      intros k'; mproj; intros Hk'; try discriminate Hk';
      rewrite Hk in Hk'; injection Hk' as <-; exact Hin.
  - destruct Hact as [Hst|Hst];
      do 2 eexists; (split; [mgo; reflexivity|]);
      (split; [reflexivity|]); (split; [reflexivity|]);
      intros k'; mproj; intros Hk'; congruence.
Qed.

(** X8.  A run of [on_download_finished] calls, one per file name, on an
    instance in ['download'] or ['cancel'] whose claim is registered,
    returns, stays in the same state, and extends the finished file names
    by these names in call order; a list that was [None] counts as
    empty. *)
Theorem finished_filenames_accumulate expand_path languages_from_locale
    (handler : Handler) filenames m held :
  active m -> claim_registered m held ->
  exists m' held',
    exec_all expand_path languages_from_locale
      (map On_download_finished filenames) (m, held) = Ok (m', held') /\
    or_nil (finished_download_filenames m')
      = (or_nil (finished_download_filenames m) ++ filenames)%list /\
    state m' = state m.
Proof.
  revert m held. induction filenames as [|f fs IH]; intros m held Hact Hreg.
  - exists m, held. cbn. rewrite app_nil_r. auto.
  - destruct (on_download_finished_run f m held Hact Hreg)
      as (m1 & held1 & Hrun & Hnames & Hst & Hreg1).
    assert (active m1) as Hact1 by (unfold active in *; rewrite Hst; exact Hact).
    destruct (IH m1 held1 Hact1 Hreg1) as (m' & held' & Hall & Hnames' & Hst').
    exists m', held'. cbn. rewrite Hrun.
    split; [exact Hall|]. split; [|congruence].
    rewrite Hnames', Hnames, <- app_assoc. reflexivity.
Qed.

(** The instance of X8 at two files, on the download that holds ["k"]. *)
Lemma finished_filenames_accumulate_witness :
  exists m' held',
    exec_all home_expand_path locale_languages
      (map On_download_finished ["a"; "b"])
      (fst (holding "k"), snd (holding "k")) = Ok (m', held') /\
    or_nil (finished_download_filenames m')
      = (or_nil (finished_download_filenames (fst (holding "k")))
           ++ ["a"; "b"])%list /\
    state m' = state (fst (holding "k")).
Proof.
  apply (finished_filenames_accumulate home_expand_path locale_languages
           silent_handler ["a"; "b"] (fst (holding "k")) (snd (holding "k"))).
  - left. vm_compute. reflexivity.
  - intros k H. vm_compute in H. injection H as <-. vm_compute. reflexivity.
Defined.

(** ** The calls on the engine *)

(** Every returning call keeps the last call on the engine in step with
    the state. *)
Lemma exec_engine_in_step expand_path languages_from_locale
    (handler : Handler) c m held m' held' :
  engine_in_step m ->
  exec expand_path languages_from_locale c (m, held)
    = Ok (tt, (m', held')) ->
  engine_in_step m'.
Proof.
  intros (Hd & Hc) H.
  destruct c; repeat autounfold with methods in H; cbn in H;
    msplit H; injection H as <- <-;
    unfold engine_in_step, lifecycle_calls; mproj;
    try (split; assumption);
    try (split; intros Hs; discriminate Hs);
    rewrite ?List.filter_app; cbn; rewrite ?app_nil_r;
    try (split; assumption);
    split; intros Hs; try discriminate Hs; apply last_snoc.
Qed.

(** X9.  In every reachable process the last call made on the engine of
    an instance, [shutdown] aside, is [start] while the instance is in
    ['download'] and [cancel] while it is in ['cancel']. *)
Theorem engine_follows_state expand_path languages_from_locale
    (handler : Handler) p i m :
  reachable expand_path languages_from_locale p ->
  instances p !! i = Some m ->
  (state m = "download" ->
     last (lifecycle_calls m) = Some Downloader_start) /\
  (state m = "cancel" ->
     last (lifecycle_calls m) = Some Downloader_cancel).
Proof.
  intros Hreach. revert i m.
  apply (reachable_instances expand_path languages_from_locale
           engine_in_step);
    [|apply exec_engine_in_step|exact Hreach].
  intros m. rewrite __init___run. intros [= <-].
  split; intros Hs; discriminate Hs.
Qed.

(** The instance of X9 at the first of two downloads. *)
Lemma engine_follows_state_witness :
  (state (fst (holding "k")) = "download" ->
     last (lifecycle_calls (fst (holding "k"))) = Some Downloader_start) /\
  (state (fst (holding "k")) = "cancel" ->
     last (lifecycle_calls (fst (holding "k"))) = Some Downloader_cancel).
Proof.
  apply (engine_follows_state home_expand_path locale_languages
           silent_handler (process_after two_downloads) 0%nat
           (fst (holding "k"))).
  - exact two_downloads_reachable.
  - vm_compute. reflexivity.
Defined.

(** ** Opening the finished download *)

(** X10.  [_open_finished_download_dir] fails its assertion when the
    finished download directory is empty, before any desktop call.
    Otherwise, when it returns, the instance and the shared set are
    unchanged; the file manager was asked first, with [ShowItems] on the one
    finished file joined to the directory when there is exactly one file
    and with [ShowFolders] on the directory otherwise; and [xdg-open] ran,
    on the directory and after a logged warning, only when the file manager
    call failed. *)
Theorem open_finished_download_dir_request
    (os_path_join : string -> string -> string) (get_uri : string -> string)
    (call_sync : filemanager_method -> list string -> bool)
    (xdg_open : string -> result unit) m held :
  (finished_download_dir m = "" ->
   _open_finished_download_dir os_path_join get_uri call_sync xdg_open
     (m, held) = Raise AssertionError) /\
  (forall calls h',
     _open_finished_download_dir os_path_join get_uri call_sync xdg_open
       (m, held) = Ok (calls, h') ->
     h' = (m, held) /\
     finished_download_dir m <> "" /\
     exists method uris more,
       calls = Filemanager_call method uris :: more /\
       match or_nil (finished_download_filenames m) with
       | [f] =>
           method = ShowItems /\
           uris = [get_uri (os_path_join (finished_download_dir m) f)]
       | _ =>
           method = ShowFolders /\
           uris = [get_uri (finished_download_dir m)]
       end /\
       (call_sync method uris = true -> more = []) /\
       (call_sync method uris = false ->
        more = [Log_warning; Xdg_open (finished_download_dir m)] /\
        xdg_open (finished_download_dir m) = Ok tt)).
Proof.
  unfold _open_finished_download_dir.
  repeat autounfold with methods. cbn. split.
  - intros ->. reflexivity.
  - intros calls h'.
    destruct (String.eqb_spec (finished_download_dir m) "") as [|Hdir]; cbn;
      [discriminate|].
    destruct (or_nil (finished_download_filenames m)) as [|f [|g fs]]; cbn.
    all: destruct (call_sync _ _) eqn:Hcall; cbn.
    all: try (destruct (xdg_open (finished_download_dir m)) as [[]|] eqn:Hx;
              cbn; [|discriminate]).
    all: intros [= <- <-]; split; [reflexivity|]; split; [exact Hdir|].
    all: do 3 eexists; split; [reflexivity|]; split; [split; reflexivity|].
    all: rewrite Hcall; split; intros Hc; try discriminate Hc; auto.
Qed.

(** The instance of X10 at a download finished with one file, when the
    file manager does not answer. *)
Lemma open_finished_download_dir_request_witness :
  (fst finished_one, snd finished_one) = (fst finished_one, snd finished_one) /\
  finished_download_dir (fst finished_one) <> "" /\
  exists method uris more,
    [Filemanager_call ShowItems ["file:///home/user//f"]; Log_warning;
     Xdg_open "/home/user/"]
      = Filemanager_call method uris :: more /\
    match or_nil (finished_download_filenames (fst finished_one)) with
    | [f] =>
        method = ShowItems /\
        uris = [(fun path => "file://" ++ path)
                  ((fun dir name => dir ++ "/" ++ name)
                     (finished_download_dir (fst finished_one)) f)]
    | _ =>
        method = ShowFolders /\
        uris = [(fun path => "file://" ++ path)
                  (finished_download_dir (fst finished_one))]
    end /\
    ((fun _ _ => false) method uris = true -> more = []) /\
    ((fun _ _ => false) method uris = false ->
     more = [Log_warning; Xdg_open (finished_download_dir (fst finished_one))] /\
     (fun _ : string => Ok tt) (finished_download_dir (fst finished_one))
       = Ok tt).
Proof.
  apply (proj2 (open_finished_download_dir_request
                  (fun dir name => dir ++ "/" ++ name)
                  (fun path => "file://" ++ path) (fun _ _ => false)
                  (fun _ => Ok tt) (fst finished_one) (snd finished_one))
           [Filemanager_call ShowItems ["file:///home/user//f"]; Log_warning;
            Xdg_open "/home/user/"]
           (fst finished_one, snd finished_one)).
  vm_compute. reflexivity.
Defined.

(** ** The guard of the cancel action *)

(** X11.  Between two transitions, the [cancel] action is accepted
    exactly when its [enabled] flag is set: enabled, it moves the instance
    to ['cancel'] and asks the engine to cancel; not enabled, it fails an
    assertion. *)
Theorem cancel_enabled_iff_accepted expand_path m held :
  synced m ->
  (cancel_enabled m = true ->
   exists m',
     action_cancel expand_path (m, held) = Ok (tt, (m', held)) /\
     state m' = "cancel" /\
     _downloader m' = (_downloader m ++ [Downloader_cancel])%list) /\
  (cancel_enabled m = false ->
   action_cancel expand_path (m, held) = Raise AssertionError).
Proof.
  intros Hsync. unfold synced in Hsync. unfold cancel_enabled. split.
  - intros Hst%String.eqb_eq. eexists. split; [mgo; reflexivity|].
    split; reflexivity.
  - intros Hst. unfold action_cancel, set_property_state.
    repeat autounfold with methods. cbn.
    rewrite _state_transition_run. cbn. rewrite Hsync. cbn. rewrite Hst.
    reflexivity.
Qed.

(** The instance of X11 at a download in progress. *)
Lemma cancel_enabled_iff_accepted_witness :
  (cancel_enabled (fst downloading) = true ->
   exists m',
     action_cancel home_expand_path (fst downloading, ∅) = Ok (tt, (m', ∅)) /\
     state m' = "cancel" /\
     _downloader m'
       = (_downloader (fst downloading) ++ [Downloader_cancel])%list) /\
  (cancel_enabled (fst downloading) = false ->
   action_cancel home_expand_path (fst downloading, ∅)
     = Raise AssertionError).
Proof.
  apply (cancel_enabled_iff_accepted home_expand_path (fst downloading) ∅).
  vm_compute. reflexivity.
Defined.

(** ** The requests to the observer *)

(** X12.  In ['download'] or ['cancel'] each of the three requests
    returns what the observer answers and changes nothing, or raises what
    the observer raises; with the base [Handler] it raises
    [NotImplementedError]; in any other state it fails an assertion without
    asking the observer. *)
Theorem handler_requests_forwarded (handler : Handler) m held :
  (active m ->
   on_playlist_request (m, held)
     = match handler_on_playlist_request with
       | Ok answer => Ok (answer, (m, held))
       | Raise e => Raise e
       end /\
   on_login_request (m, held)
     = match handler_on_login_request with
       | Ok answer => Ok (answer, (m, held))
       | Raise e => Raise e
       end /\
   on_videopassword_request (m, held)
     = match handler_on_videopassword_request with
       | Ok answer => Ok (answer, (m, held))
       | Raise e => Raise e
       end /\
   @on_playlist_request base_Handler (m, held) = Raise NotImplementedError /\
   @on_login_request base_Handler (m, held) = Raise NotImplementedError /\
   @on_videopassword_request base_Handler (m, held)
     = Raise NotImplementedError) /\
  (~ active m ->
   on_playlist_request (m, held) = Raise AssertionError /\
   on_login_request (m, held) = Raise AssertionError /\
   on_videopassword_request (m, held) = Raise AssertionError).
Proof.
  split.
  - intros [Hst|Hst]; repeat split; mgo; reflexivity.
  - intros Hact. rewrite <- str_in_active in Hact.
    apply not_true_is_false in Hact. cbn in Hact.
    repeat split; repeat autounfold with methods; cbn; rewrite Hact;
      reflexivity.
Qed.

(** The instance of X12 at a download in progress, with the observer of
    the examples. *)
Lemma handler_requests_forwarded_witness :
  on_playlist_request (fst downloading, ∅)
    = match handler_on_playlist_request with
      | Ok answer => Ok (answer, (fst downloading, ∅))
      | Raise e => Raise e
      end /\
  on_login_request (fst downloading, ∅)
    = match handler_on_login_request with
      | Ok answer => Ok (answer, (fst downloading, ∅))
      | Raise e => Raise e
      end /\
  on_videopassword_request (fst downloading, ∅)
    = match handler_on_videopassword_request with
      | Ok answer => Ok (answer, (fst downloading, ∅))
      | Raise e => Raise e
      end /\
  @on_playlist_request base_Handler (fst downloading, ∅)
    = Raise NotImplementedError /\
  @on_login_request base_Handler (fst downloading, ∅)
    = Raise NotImplementedError /\
  @on_videopassword_request base_Handler (fst downloading, ∅)
    = Raise NotImplementedError.
Proof.
  apply (proj1 (handler_requests_forwarded silent_handler
                  (fst downloading) ∅)).
  left. vm_compute. reflexivity.
Defined.

(** ** Going back while cancelling *)

(** X13.  The [back] action has no guard of its own and ['cancel'] to
    ['start'] passes the assertion: in ['cancel'] it returns with the
    instance in ['start'], reset, and with the claim and the shared set as
    they were; the engine's [on_finished] that follows fails its
    assertion, so it does not release the claim. *)
Theorem back_while_cancelling expand_path success m held k :
  state m = "cancel" -> synced m ->
  _active_download_lock m = Some k ->
  exists m',
    action_back expand_path (m, held) = Ok (tt, (m', held)) /\
    state m' = "start" /\
    at_reset m' /\
    _active_download_lock m' = Some k /\
    on_finished expand_path success (m', held) = Raise AssertionError.
Proof.
  intros Hst Hsync Hk. unfold synced in Hsync.
  eexists. split; [mgo; reflexivity|].
  split; [reflexivity|]. split; [|split].
  - apply at_reset_set_prev_state, reset_telemetry_at_reset.
  - rewrite <- Hk. reflexivity.
  - reflexivity.
Qed.

(** The instance of X13 at a download that holds ["k"] and is being
    cancelled. *)
Lemma back_while_cancelling_witness :
  exists m',
    action_back home_expand_path (fst (cancelling "k"), snd (cancelling "k"))
      = Ok (tt, (m', snd (cancelling "k"))) /\
    state m' = "start" /\
    at_reset m' /\
    _active_download_lock m' = Some "k" /\
    on_finished home_expand_path true (m', snd (cancelling "k"))
      = Raise AssertionError.
Proof.
  apply (back_while_cancelling home_expand_path true
           (fst (cancelling "k")) (snd (cancelling "k")) "k").
  - vm_compute. reflexivity.
  - vm_compute. reflexivity.
  - vm_compute. reflexivity.
Defined.

(** ** Instances of the lock lemmas *)

(** The instance of X1 at the name ["k"], free at first. *)
Lemma download_lock_exclusive_witness :
  let a1 := set_active_download_lock (Some "k") (fst downloading) in
  on_download_lock "k" (fst downloading, ∅)
    = Ok (true, (a1, {["k"]} ∪ ∅)) /\
  on_download_lock "k" (fst downloading, {["k"]} ∪ ∅)
    = Ok (false, (fst downloading, {["k"]} ∪ ∅)) /\
  ("k" <> "" ->
   _download_unlock (a1, {["k"]} ∪ ∅)
     = Ok (tt, (set_active_download_lock None a1, ∅)) /\
   on_download_lock "k" (fst downloading, ∅)
     = Ok (true, (set_active_download_lock (Some "k") (fst downloading),
                  {["k"]} ∪ ∅))).
Proof.
  apply (download_lock_exclusive "k" (fst downloading) (fst downloading) ∅).
  - left. vm_compute. reflexivity.
  - vm_compute. reflexivity.
  - left. vm_compute. reflexivity.
  - vm_compute. reflexivity.
  - apply not_elem_of_empty.
Defined.

(** The instance of X3 at the download that holds ["k"]. *)
Lemma on_download_finished_releases_witness :
  exists m',
    on_download_finished "f" (fst (holding "k"), snd (holding "k"))
      = Ok (tt, (m', snd (holding "k") ∖ {["k"]})) /\
    _active_download_lock m' = None /\
    finished_download_filenames m'
      = Some (or_nil (finished_download_filenames (fst (holding "k")))
                ++ ["f"])%list /\
    exists b h,
      on_download_lock "g" (m', snd (holding "k") ∖ {["k"]}) = Ok (b, h).
Proof.
  apply (on_download_finished_releases "f" "g" (fst (holding "k"))
           (snd (holding "k")) "k").
  - left. vm_compute. reflexivity.
  - vm_compute. reflexivity.
  - discriminate.
  - vm_compute. reflexivity.
Defined.

(** The instance of X4 at the [cancel] action on a download in
    progress. *)
Lemma accepted_transition_witness :
  exists m',
    set_property_state home_expand_path "cancel" (fst downloading, ∅)
      = Ok (tt, (m', ∅)) /\
    state m' = "cancel" /\ synced m'.
Proof.
  apply (accepted_transition home_expand_path (fst downloading) ∅ "cancel").
  - vm_compute. reflexivity.
  - left. vm_compute. reflexivity.
Defined.

(** ** The progress report *)

(** X15.  When [on_progress] returns, the file name, progress, bytes,
    total, eta and speed read back as the arguments, in that order; and a
    call that is not [on_progress] and does not leave the instance in
    ['start'] keeps them, so they outlast the end of the download. *)
Theorem progress_report_is_kept expand_path languages_from_locale
    (handler : Handler) c m held m' held' :
  exec expand_path languages_from_locale c (m, held)
    = Ok (tt, (m', held')) ->
  match c with
  | On_progress filename progress bytes_ bytes_total eta speed =>
      progress_report m'
        = (filename, progress, bytes_, bytes_total, eta, speed)
  | _ => state m' <> "start" -> progress_report m' = progress_report m
  end.
Proof.
  intros H.
  destruct c; repeat autounfold with methods in H; cbn in H;
    msplit H; injection H as <- <-;
    try (intros Hst); unfold progress_report; mproj;
    try reflexivity; destruct Hst; reflexivity.
Qed.

(** The instance of X15 at a reported progress and at the end of that
    download. *)
Lemma progress_report_is_kept_witness :
  progress_report
    (fst (after [On_progress "f" 0.5%float 500 1000 10 50] downloading))
    = ("f", 0.5%float, 500, 1000, 10, 50) /\
  (state
     (fst (after [On_progress "f" 0.5%float 500 1000 10 50; On_finished true]
             downloading)) <> "start" ->
   progress_report
     (fst (after [On_progress "f" 0.5%float 500 1000 10 50; On_finished true]
             downloading))
     = progress_report
         (fst (after [On_progress "f" 0.5%float 500 1000 10 50]
                 downloading))).
Proof.
  split.
  - apply (progress_report_is_kept home_expand_path locale_languages
             silent_handler (On_progress "f" 0.5%float 500 1000 10 50)
             (fst downloading) (snd downloading)
             (fst (after [On_progress "f" 0.5%float 500 1000 10 50]
                     downloading))
             (snd (after [On_progress "f" 0.5%float 500 1000 10 50]
                     downloading))).
    vm_compute. reflexivity.
  - apply (progress_report_is_kept home_expand_path locale_languages
             silent_handler (On_finished true)
             (fst (after [On_progress "f" 0.5%float 500 1000 10 50]
                     downloading))
             (snd (after [On_progress "f" 0.5%float 500 1000 10 50]
                     downloading))
             (fst (after [On_progress "f" 0.5%float 500 1000 10 50;
                          On_finished true] downloading))
             (snd (after [On_progress "f" 0.5%float 500 1000 10 50;
                          On_finished true] downloading))).
    vm_compute. reflexivity.
Defined.
